(** * Token cache and refresh logic of the Outlook MCP server

    A shallow embedding of [auth/token-manager.js] (the token file, the
    module-level cache, [getAccessToken], [refreshAccessToken]) and of
    [ensureAuthenticated] from the authentication module, followed by the
    properties of the token life cycle that hold, or fail, on that code.

    Conventions of the embedding:
    - a JavaScript function that reads or writes the module variable
      [cachedTokens], the token file or the network is a computation in the
      monad [js]: it maps a [world] to a new [world] and a [completion]
      (a returned value or a thrown error); [try_catch] is [try]/[catch];
    - [Date.now()] is an argument ([now], epoch milliseconds);
    - a text handed to [JSON.parse] is represented by what [JSON.parse] does
      with it ([Malformed]: it throws; [Encodes v]: it returns [v]);
    - a promise is data: [refreshAccessToken] returns either a promise that
      is already rejected or one whose request is in flight, and
      [refresh_settle] is the response handler that settles the latter;
    - numbers are integers (epoch milliseconds, second counts) or NaN;
      fractions, infinities and the rounding of doubles are not modelled;
    - objects and arrays are compared by value: the code never mutates an
      object after it has stored it in the cache, so aliasing is not
      observable. *)

From stdpp Require Import gmap strings list fin_maps pretty.
From Stdlib Require Import ZArith Lia.

Set Warnings "-register-all".
Open Scope Z_scope.

(** ** JavaScript values *)

Inductive number :=
| Fin (z : Z)
| NaN.

Inductive value :=
| VUndefined
| VNull
| VBool (b : bool)
| VNum (n : number)
| VStr (s : string)
| VObj (props : gmap string value)
| VArr (elems : list value) (props : gmap string value).

(** A text, as [JSON.parse] sees it. *)
Inductive text :=
| Malformed
| Encodes (v : value).

(** Errors that the code throws or rejects with.  The first four are the
    runtime's, the others are the [new Error (...)] of the source, named by
    their message. *)
Inductive error :=
| TypeError
| SyntaxError
| FsError
| NetworkError
| NoRefreshTokenAvailable
| ErrorParsingTokenResponse
| TokenRefreshFailedWithStatus (statusCode : Z) (data : text)
| AuthenticationRequired.

Inductive completion (A : Type) :=
| Return (a : A)
| Throw (e : error).
Arguments Return {A} a.
Arguments Throw {A} e.

(** [ToBoolean]. *)
Definition truthy (v : value) : bool :=
  match v with
  | VUndefined | VNull => false
  | VBool b => b
  | VNum (Fin z) => negb (z =? 0)
  | VNum NaN => false
  | VStr s => negb (String.eqb s EmptyString)
  | VObj _ | VArr _ _ => true
  end.

(** [a || b]. *)
Definition js_or (a b : value) : value := if truthy a then a else b.

(** [v.k] for the property names the code uses ([access_token],
    [refresh_token], [expires_at], [expires_in]): none of them is inherited
    from a prototype, an index or [length].  Reading a property of [null] or
    [undefined] throws; a primitive has none of these properties. *)
Definition prop (v : value) (k : string) : completion value :=
  match v with
  | VUndefined | VNull => Throw TypeError
  | VObj m | VArr _ m => Return (default VUndefined (m !! k))
  | VBool _ | VNum _ | VStr _ => Return VUndefined
  end.

(** [v.k = x], giving the object after the assignment.  The module is not in
    strict mode: assigning a property of a primitive does nothing. *)
Definition assign (v : value) (k : string) (x : value) : completion value :=
  match v with
  | VUndefined | VNull => Throw TypeError
  | VObj m => Return (VObj (<[k:=x]> m))
  | VArr l m => Return (VArr l (<[k:=x]> m))
  | VBool _ | VNum _ | VStr _ => Return v
  end.

Definition num_add (a b : number) : number :=
  match a, b with Fin x, Fin y => Fin (x + y) | _, _ => NaN end.

Definition num_sub (a b : number) : number :=
  match a, b with Fin x, Fin y => Fin (x - y) | _, _ => NaN end.

Definition num_mul (a b : number) : number :=
  match a, b with Fin x, Fin y => Fin (x * y) | _, _ => NaN end.

(** [a > b] on numbers: false as soon as one side is NaN. *)
Definition num_gt (a b : number) : bool :=
  match a, b with Fin x, Fin y => y <? x | _, _ => false end.

(** What [JSON.parse (JSON.stringify v)] gives: NaN becomes [null], a
    property whose value is [undefined] is dropped, an array keeps its
    elements only ([undefined] elements become [null]).  [None]:
    [JSON.stringify] returns [undefined] instead of a string. *)
Fixpoint jsonify (v : value) : option value :=
  match v with
  | VUndefined => None
  | VNum NaN => Some VNull
  | VObj m => Some (VObj (omap jsonify m))
  | VArr l _ => Some (VArr (map (fun x => default VNull (jsonify x)) l) ∅)
  | VNull | VBool _ | VNum (Fin _) | VStr _ => Some v
  end.

Definition JSON_stringify (v : value) : option text := Encodes <$> jsonify v.

(** ** The world: cache, token file, network *)

(** The file at [config.AUTH_CONFIG.tokenStorePath]. [Unreadable]: the path
    exists but [fs.readFileSync] throws (a directory, no permission). *)
Inductive file_state :=
| NoFile
| Unreadable
| Holds (t : text).

(** How the disk answers a [fs.writeFileSync] : it succeeds, or it throws
    and leaves the file in some state (untouched, truncated, ...). *)
Inductive write_outcome :=
| Written
| WriteFails (left_behind : file_state).

(** The POST to [login.microsoftonline.com/common/oauth2/v2.0/token]; apart
    from the refresh token its form fields are configuration constants. *)
Record request := { rq_grant_type : string; rq_refresh_token : value }.

Record world := {
  cachedTokens : value;
  tokenFile : file_state;
  sent : list request
}.

Definition with_cachedTokens (c : value) (w : world) : world :=
  {| cachedTokens := c; tokenFile := tokenFile w; sent := sent w |}.

Definition with_tokenFile (f : file_state) (w : world) : world :=
  {| cachedTokens := cachedTokens w; tokenFile := f; sent := sent w |}.

Definition with_sent (l : list request) (w : world) : world :=
  {| cachedTokens := cachedTokens w; tokenFile := tokenFile w; sent := l |}.

(** What comes back for a request in flight: an ['error'] event, or a
    response with its status code and body; [at_time] is [Date.now()] in the
    response handler and [disk] how the disk answers its write. *)
Inductive net_outcome :=
| NetError
| Response (statusCode : Z) (data : text).

Record arrival := { outcome : net_outcome; at_time : Z; disk : write_outcome }.

(** ** The monad of JavaScript computations *)

Definition js (A : Type) : Type := world -> world * completion A.

#[global] Instance js_ret : MRet js := fun A a w => (w, Return a).

#[global] Instance js_bind : MBind js := fun A B f c w =>
  match c w with
  | (w', Return a) => f a w'
  | (w', Throw e) => (w', Throw e)
  end.

Definition throw {A} (e : error) : js A := fun w => (w, Throw e).

Definition lift {A} (c : completion A) : js A := fun w => (w, c).

Definition try_catch {A} (body : js A) (handler : error -> js A) : js A :=
  fun w =>
    match body w with
    | (w', Return a) => (w', Return a)
    | (w', Throw e) => handler e w'
    end.

Definition get (v : value) (k : string) : js value := lift (prop v k).

Definition set (v : value) (k : string) (x : value) : js value :=
  lift (assign v k x).

Definition get_cachedTokens : js value := fun w => (w, Return (cachedTokens w)).

Definition set_cachedTokens (tokens : value) : js unit :=
  fun w => (with_cachedTokens tokens w, Return tt).

Definition fs_existsSync : js bool :=
  fun w => (w, Return (match tokenFile w with NoFile => false | _ => true end)).

Definition fs_statSync : js unit :=
  fun w => (w, match tokenFile w with NoFile => Throw FsError | _ => Return tt end).

Definition fs_readFileSync : js text :=
  fun w => (w, match tokenFile w with Holds t => Return t | _ => Throw FsError end).

(** [fs.writeFileSync (tokenPath, data)]; it rejects a [data] that is not a
    string before it touches the file. *)
Definition fs_writeFileSync (d : write_outcome) (data : option text) : js unit :=
  fun w =>
    match data with
    | None => (w, Throw TypeError)
    | Some t =>
        match d with
        | Written => (with_tokenFile (Holds t) w, Return tt)
        | WriteFails f => (with_tokenFile f w, Throw FsError)
        end
    end.

Definition JSON_parse (t : text) : js value :=
  match t with
  | Malformed => throw SyntaxError
  | Encodes v => mret v
  end.

(** [Object.keys (v)]: the keys are only logged, the exception on [null]
    matters. *)
Definition Object_keys (v : value) : js unit :=
  match v with
  | VUndefined | VNull => throw TypeError
  | _ => mret tt
  end.

Definition https_request (rq : request) : js unit :=
  fun w => (with_sent (sent w ++ [rq]) w, Return tt).

(** ** token-manager.js *)

Section TokenManager.

(** [ToNumber] of a string or of an object (arrays included) goes through
    the language's string-to-number grammar and [ToPrimitive]; that
    conversion is the runtime's, not this module's, and is kept abstract. *)
Variable ToNumber_coerce : value -> number.

Definition to_number (v : value) : number :=
  match v with
  | VUndefined => NaN
  | VNull => Fin 0
  | VBool b => Fin (if b then 1 else 0)
  | VNum n => n
  | VStr _ | VObj _ | VArr _ _ => ToNumber_coerce v
  end.

(** [loadTokenCache ()]. *)
Definition loadTokenCache : js value :=
  try_catch
    (present ← fs_existsSync;
     if negb present then mret VNull else
     _ ← fs_statSync;
     tokenData ← fs_readFileSync;
     try_catch
       (tokens ← JSON_parse tokenData;
        _ ← Object_keys tokens;
        access_token ← get tokens "access_token";
        if negb (truthy access_token) then mret VNull else
        _ ← set_cachedTokens tokens;
        mret tokens)
       (fun parseError => mret VNull))
    (fun error => mret VNull).

(** [saveTokenCache (tokens)]. *)
Definition saveTokenCache (d : write_outcome) (tokens : value) : js bool :=
  try_catch
    (_ ← fs_writeFileSync d (JSON_stringify tokens);
     _ ← set_cachedTokens tokens;
     mret true)
    (fun error => mret false).

(** [now > expiresAt - (5 * 60 * 1000)] with
    [expiresAt = tokens.expires_at || 0]. *)
Definition expiresSoon (now : Z) (expires_at : value) : bool :=
  let expiresAt := js_or expires_at (VNum (Fin 0)) in
  num_gt (Fin now) (num_sub (to_number expiresAt) (Fin (5 * 60 * 1000))).

(** The promise that [refreshAccessToken] returns once its executor has
    run: rejected on the spot, or waiting for the answer to the request it
    has sent, with the loaded [tokens] captured by the response handler. *)
Inductive promise :=
| Rejected (e : error)
| InFlight (tokens : value).

Definition refresh_request (refresh_token : value) : request :=
  {| rq_grant_type := "refresh_token"; rq_refresh_token := refresh_token |}.

(** [refreshAccessToken ()], the executor of the promise up to
    [req.end ()]. *)
Definition refreshAccessToken : js promise :=
  tokens ← loadTokenCache;
  if negb (truthy tokens) then mret (Rejected NoRefreshTokenAvailable) else
  refresh_token ← get tokens "refresh_token";
  if negb (truthy refresh_token) then mret (Rejected NoRefreshTokenAvailable) else
  _ ← https_request (refresh_request refresh_token);
  mret (InFlight tokens).

(** The handlers of the request: [req.on ('error')] and [res.on ('end')].
    [Return v] is [resolve (v)], [Throw e] is [reject (e)]. *)
Definition refresh_settle (tokens : value) (a : arrival) : js value :=
  match outcome a with
  | NetError => throw NetworkError
  | Response statusCode data =>
      if (200 <=? statusCode) && (statusCode <? 300) then
        try_catch
          (tokenResponse ← JSON_parse data;
           expires_in ← get tokenResponse "expires_in";
           let expiresAt :=
             num_add (Fin (at_time a)) (num_mul (to_number expires_in) (Fin 1000)) in
           tokenResponse ← set tokenResponse "expires_at" (VNum expiresAt);
           new_refresh ← get tokenResponse "refresh_token";
           tokenResponse ←
             (if truthy new_refresh then mret tokenResponse else
              old_refresh ← get tokens "refresh_token";
              if truthy old_refresh
              then set tokenResponse "refresh_token" old_refresh
              else mret tokenResponse);
           _ ← saveTokenCache (disk a) tokenResponse;
           get tokenResponse "access_token")
          (fun error => throw ErrorParsingTokenResponse)
      else throw (TokenRefreshFailedWithStatus statusCode data)
  end.

(** What [getAccessToken] hands back: a plain value, or the promise of a
    refresh chained with [.then (newToken => newToken)] and
    [.catch (error => null)]. *)
Inductive returned :=
| Value (v : value)
| Promise (p : promise).

(** [getAccessToken ()]. *)
Definition getAccessToken (now : Z) : js returned :=
  cached ← get_cachedTokens;
  hit ← (if truthy cached then get cached "access_token" else mret cached);
  if truthy hit then
    expires_at ← get cached "expires_at";
    if expiresSoon now expires_at then
      p ← refreshAccessToken;
      mret (Promise p)
    else
      access_token ← get cached "access_token";
      mret (Value access_token)
  else
    tokens ← loadTokenCache;
    if negb (truthy tokens) then mret (Value VNull) else
    expires_at ← get tokens "expires_at";
    if expiresSoon now expires_at then
      p ← refreshAccessToken;
      mret (Promise p)
    else
      access_token ← get tokens "access_token";
      mret (Value access_token).

(** [await] on what [getAccessToken] returned. *)
Definition await_token (r : returned) (a : arrival) : js value :=
  match r with
  | Value v => mret v
  | Promise (Rejected e) => mret VNull
  | Promise (InFlight tokens) =>
      try_catch (refresh_settle tokens a) (fun error => mret VNull)
  end.

(** ** The authentication module *)

(** [ensureAuthenticated (forceNew)], run to completion; [a] is the answer
    to the refresh request, should one be sent. *)
Definition ensureAuthenticated (forceNew : bool) (now : Z) (a : arrival) : js value :=
  if forceNew then throw AuthenticationRequired else
  try_catch
    (r ← getAccessToken now;
     accessToken ← await_token r a;
     if negb (truthy accessToken) then throw AuthenticationRequired else
     mret accessToken)
    (fun error => throw AuthenticationRequired).

(** Requests made one after the other before any answer arrives: the
    synchronous part of each [getAccessToken ()] runs in turn. *)
Fixpoint callers (nows : list Z) : js (list returned) :=
  match nows with
  | [] => mret []
  | now :: rest =>
      r ← getAccessToken now;
      rs ← callers rest;
      mret (r :: rs)
  end.

(** [createTestTokens ()]. [t1], [t2] and [t3] are the three readings of
    [Date.now ()], in the order of the object literal; a number of fewer
    than 22 digits, as a clock reading is, is appended to a string in
    decimal. *)
Definition createTestTokens (t1 t2 t3 : Z) (d : write_outcome) : js value :=
  let testTokens :=
    VObj (<["access_token" := VStr ("test_access_token_" +:+ pretty t1)]>
            (<["refresh_token" := VStr ("test_refresh_token_" +:+ pretty t2)]>
               (<["expires_at" := VNum (Fin (t3 + 3600 * 1000))]> ∅))) in
  _ ← saveTokenCache d testTokens;
  mret testTokens.

(** ** Notions used in the statements *)

(** [v.k] where the read cannot throw. *)
Definition field (v : value) (k : string) : value :=
  match prop v k with
  | Return x => x
  | Throw _ => VUndefined
  end.

(** The record that a file offers to [loadTokenCache]: its text parses and
    the result has a truthy [access_token]. *)
Definition stored (f : file_state) : option value :=
  match f with
  | Holds (Encodes v) =>
      match prop v "access_token" with
      | Return a => if truthy a then Some v else None
      | Throw _ => None
      end
  | NoFile | Unreadable | Holds Malformed => None
  end.

(** A record with a usable access token: what the first test of
    [getAccessToken] asks of the cache. *)
Definition usable (v : value) : bool :=
  truthy (if truthy v then field v "access_token" else v).

(** Everything but [undefined] and [null] has properties to read. *)
Definition coercible (v : value) : bool :=
  match v with
  | VUndefined | VNull => false
  | _ => true
  end.

(** Where [refreshAccessToken] leaves the world, and the promise it
    returns. *)
Definition started (w : world) : world * promise :=
  match stored (tokenFile w) with
  | None => (w, Rejected NoRefreshTokenAvailable)
  | Some t =>
      if truthy (field t "refresh_token")
      then (with_sent (sent w ++ [refresh_request (field t "refresh_token")])
              (with_cachedTokens t w), InFlight t)
      else (with_cachedTokens t w, Rejected NoRefreshTokenAvailable)
  end.

(** The record that the response handler builds from an object body [m]:
    [expires_at] set from the clock and [expires_in], and the refresh token
    of [tokens] taken over when the body brings none. *)
Definition refreshed (tokens : value) (now : Z) (m : gmap string value) :
    gmap string value :=
  let expires_in := default VUndefined (m !! "expires_in") in
  let expiresAt := num_add (Fin now) (num_mul (to_number expires_in) (Fin 1000)) in
  let m1 := <["expires_at" := VNum expiresAt]> m in
  if truthy (default VUndefined (m !! "refresh_token")) then m1
  else if truthy (field tokens "refresh_token")
       then <["refresh_token" := field tokens "refresh_token"]> m1
       else m1.

(** The refresh behind the promise [p] fails: [p] was rejected by the
    executor, or the handlers of its request reject it on the answer [a]. *)
Definition refresh_fails (p : promise) (a : arrival) (w : world) : Prop :=
  match p with
  | Rejected _ => True
  | InFlight tokens => exists w' e, refresh_settle tokens a w = (w', Throw e)
  end.

(** The state the single-flight property is about: the cache and the file
    agree on a record that has an access token and a refresh token. *)
Definition coherent (m : gmap string value) (w : world) : Prop :=
  cachedTokens w = VObj m
  /\ tokenFile w = Holds (Encodes (VObj m))
  /\ truthy (field (VObj m) "access_token") = true
  /\ truthy (field (VObj m) "refresh_token") = true.

(** A JSON boolean, number or string. *)
Definition primitive (v : value) : bool :=
  match v with
  | VBool _ | VNum (Fin _) | VStr _ => true
  | _ => false
  end.

(** Neither the cache nor the file has a record with an access token. *)
Definition absent (w : world) : Prop :=
  usable (cachedTokens w) = false
  /\ (tokenFile w = NoFile \/ tokenFile w = Unreadable \/ tokenFile w = Holds Malformed
      \/ exists content, tokenFile w = Holds (Encodes content)
                         /\ truthy (field content "access_token") = false).

(** The record that [createTestTokens] builds from its three clock
    readings. *)
Definition testTokens (t1 t2 t3 : Z) : gmap string value :=
  <["access_token" := VStr ("test_access_token_" +:+ pretty t1)]>
    (<["refresh_token" := VStr ("test_refresh_token_" +:+ pretty t2)]>
       (<["expires_at" := VNum (Fin (t3 + 3600 * 1000))]> ∅)).

(** ** Sample data

    A record [A1]/[R1] in the file, and a provider that answers a refresh
    with an [access_token] and [expires_in = 3600]. *)

(** An instance of the abstract conversion: every string and object
    converts to NaN, as non-numeric strings and plain objects do.  The
    samples never convert one. *)
Definition no_conversion : value -> number := fun _ => NaN.

Definition now0 : Z := 1700000000000.

Definition tokens_A1 (expires_at : Z) : gmap string value :=
  <["access_token" := VStr "A1"]>
    (<["refresh_token" := VStr "R1"]>
       (<["expires_at" := VNum (Fin expires_at)]> ∅)).

Definition body_of (access_token : string) : gmap string value :=
  <["access_token" := VStr access_token]> (<["expires_in" := VNum (Fin 3600)]> ∅).

Definition answer (access_token : string) (d : write_outcome) : arrival :=
  {| outcome := Response 200 (Encodes (VObj (body_of access_token)));
     at_time := now0 + 250;
     disk := d |}.

Definition answer_500 : arrival :=
  {| outcome := Response 500 Malformed; at_time := now0 + 250; disk := Written |}.

(** The record is in the file only. *)
Definition seeded (expires_at : Z) : world :=
  {| cachedTokens := VNull;
     tokenFile := Holds (Encodes (VObj (tokens_A1 expires_at)));
     sent := [] |}.

(** The record is in the file and in the cache. *)
Definition warm (expires_at : Z) : world :=
  {| cachedTokens := VObj (tokens_A1 expires_at);
     tokenFile := Holds (Encodes (VObj (tokens_A1 expires_at)));
     sent := [] |}.

(** The record [A2] that the handler builds from [answer "A2"]. *)
Definition tokens_A2 : gmap string value :=
  <["refresh_token" := VStr "R1"]>
    (<["expires_at" := VNum (Fin (now0 + 250 + 3600 * 1000))]> (body_of "A2")).

(** More sample data: a 2xx answer with an arbitrary body, and the world
    before any login. *)
Definition answer_with (body : value) : arrival :=
  {| outcome := Response 200 (Encodes body); at_time := now0 + 250; disk := Written |}.

Definition empty_world : world :=
  {| cachedTokens := VNull; tokenFile := NoFile; sent := [] |}.

(** ** Reading the functions *)

Ltac run :=
  unfold try_catch, mbind, js_bind, mret, js_ret, throw, lift, get, set,
    get_cachedTokens, set_cachedTokens, fs_existsSync, fs_statSync,
    fs_readFileSync, fs_writeFileSync, JSON_parse, Object_keys,
    https_request in *;
  simpl in *.

Lemma coercible_prop v k : coercible v = true -> prop v k = Return (field v k).
Proof. unfold field. by destruct v. Qed.

Lemma not_coercible_prop v k : coercible v = false -> prop v k = Throw TypeError.
Proof. by destruct v. Qed.

Lemma coercible_assign v k x :
  coercible v = true -> exists r, assign v k x = Return r /\ coercible r = true.
Proof. destruct v; simpl; try done; eauto. Qed.

Lemma truthy_prop v : truthy v = true -> forall k, prop v k = Return (field v k).
Proof. unfold field. destruct v; simpl; intros H k; try done. Qed.

Lemma stored_Some f t :
  stored f = Some t ->
  f = Holds (Encodes t) /\ truthy t = true /\ truthy (field t "access_token") = true.
Proof.
  unfold stored, field. destruct f as [| |[|v]]; try discriminate.
  destruct v; simpl; try discriminate.
  all: destruct (truthy _) eqn:E; intros [= <-]; simpl; auto.
Qed.

Lemma stored_holds v :
  truthy (field v "access_token") = true -> stored (Holds (Encodes v)) = Some v.
Proof.
  unfold stored, field. destruct v; simpl; try done.
  all: intros ->; done.
Qed.

Lemma loadTokenCache_run w :
  loadTokenCache w =
  match stored (tokenFile w) with
  | Some t => (with_cachedTokens t w, Return t)
  | None => (w, Return VNull)
  end.
Proof.
  unfold loadTokenCache, stored. run.
  destruct (tokenFile w) as [| |[|v]] eqn:E; simpl; rewrite ?E; simpl; try done.
  destruct v; simpl; try done.
  all: destruct (truthy _); done.
Qed.

Lemma refreshAccessToken_run w :
  refreshAccessToken w =
  match stored (tokenFile w) with
  | None => (w, Return (Rejected NoRefreshTokenAvailable))
  | Some t =>
      if truthy (field t "refresh_token")
      then (with_sent (sent w ++ [refresh_request (field t "refresh_token")])
              (with_cachedTokens t w), Return (InFlight t))
      else (with_cachedTokens t w, Return (Rejected NoRefreshTokenAvailable))
  end.
Proof.
  unfold refreshAccessToken. unfold mbind at 1, js_bind at 1.
  rewrite loadTokenCache_run.
  destruct (stored (tokenFile w)) as [t|] eqn:E; [|done].
  apply stored_Some in E as (_ & Ht & _). rewrite Ht. simpl.
  run. rewrite (truthy_prop _ Ht).
  destruct (truthy (field t "refresh_token")); done.
Qed.

Lemma saveTokenCache_run d tokens w :
  saveTokenCache d tokens w =
  match JSON_stringify tokens, d with
  | Some t, Written =>
      (with_cachedTokens tokens (with_tokenFile (Holds t) w), Return true)
  | Some t, WriteFails f => (with_tokenFile f w, Return false)
  | None, _ => (w, Return false)
  end.
Proof.
  unfold saveTokenCache. run.
  destruct (JSON_stringify tokens); [destruct d|]; done.
Qed.

Lemma refreshAccessToken_started w :
  refreshAccessToken w = (fst (started w), Return (snd (started w))).
Proof.
  rewrite refreshAccessToken_run. unfold started.
  destruct (stored (tokenFile w)); [|done].
  destruct (truthy (field v "refresh_token")); done.
Qed.

Lemma getAccessToken_run now w :
  getAccessToken now w =
  let c := cachedTokens w in
  if usable c then
    if expiresSoon now (field c "expires_at")
    then (fst (started w), Return (Promise (snd (started w))))
    else (w, Return (Value (field c "access_token")))
  else
    match stored (tokenFile w) with
    | None => (w, Return (Value VNull))
    | Some t =>
        let w1 := with_cachedTokens t w in
        if expiresSoon now (field t "expires_at")
        then (fst (started w1), Return (Promise (snd (started w1))))
        else (w1, Return (Value (field t "access_token")))
    end.
Proof.
  unfold getAccessToken, usable. cbv zeta. run.
  assert (Hload : forall t, stored (tokenFile w) = Some t ->
            truthy t = true /\ forall k, prop t k = Return (field t k)).
  { intros t Ht. apply stored_Some in Ht as (_ & Ht & _).
    split; [done|]. by apply truthy_prop. }
  destruct (truthy (cachedTokens w)) eqn:Hc; simpl.
  - rewrite !(truthy_prop _ Hc). simpl.
    destruct (truthy (field (cachedTokens w) "access_token")) eqn:Ha; simpl.
    + destruct (expiresSoon _ _); simpl; [|done].
      by rewrite refreshAccessToken_started.
    + rewrite loadTokenCache_run.
      destruct (stored (tokenFile w)) as [t|] eqn:E; simpl; [|done].
      destruct (Hload t eq_refl) as [-> Hp]. simpl. rewrite !Hp. simpl.
      destruct (expiresSoon _ _); simpl; [|done].
      by rewrite refreshAccessToken_started.
  - rewrite Hc. simpl. rewrite loadTokenCache_run.
    destruct (stored (tokenFile w)) as [t|] eqn:E; simpl; [|done].
    destruct (Hload t eq_refl) as [-> Hp]. simpl. rewrite !Hp. simpl.
    destruct (expiresSoon _ _); simpl; [|done].
    by rewrite refreshAccessToken_started.
Qed.

Lemma two_hundreds s : 200 <= s < 300 -> (200 <=? s) && (s <? 300) = true.
Proof. intros. apply andb_true_iff. split; [apply Z.leb_le|apply Z.ltb_lt]; lia. Qed.

Lemma refresh_settle_object tokens a s m w :
  truthy tokens = true ->
  outcome a = Response s (Encodes (VObj m)) ->
  200 <= s < 300 ->
  refresh_settle tokens a w =
  (fst (saveTokenCache (disk a) (VObj (refreshed tokens (at_time a) m)) w),
   Return (default VUndefined (m !! "access_token"))).
Proof.
  intros Ht Ha Hs. unfold refresh_settle. rewrite Ha, (two_hundreds _ Hs).
  unfold refreshed. cbv zeta. run.
  rewrite lookup_insert_ne by done.
  destruct (truthy (default VUndefined (m !! "refresh_token"))); simpl.
  - rewrite saveTokenCache_run.
    destruct (JSON_stringify _); [destruct (disk a)|]; simpl;
      by rewrite lookup_insert_ne.
  - rewrite (truthy_prop _ Ht). simpl.
    destruct (truthy (field tokens "refresh_token")); simpl;
      rewrite saveTokenCache_run;
      (destruct (JSON_stringify _); [destruct (disk a)|]); simpl;
      by rewrite !lookup_insert_ne.
Qed.

Lemma refresh_settle_throw tokens a w w' e :
  refresh_settle tokens a w = (w', Throw e) -> w' = w.
Proof.
  unfold refresh_settle.
  destruct (outcome a) as [|s [|body]]; run; try by intros [= <-].
  all: destruct (_ && _); try by intros [= <-].
  destruct (coercible body) eqn:Hb.
  2:{ rewrite (not_coercible_prop _ _ Hb). simpl. by intros [= <-]. }
  rewrite (coercible_prop _ _ Hb). simpl.
  match goal with
  | |- context [assign body "expires_at" ?x] =>
      destruct (coercible_assign body "expires_at" x Hb) as (r & -> & Hr)
  end.
  simpl. rewrite (coercible_prop _ _ Hr). simpl.
  destruct (truthy (field r "refresh_token")); simpl.
  { rewrite saveTokenCache_run, (coercible_prop _ _ Hr).
    destruct (JSON_stringify r); [destruct (disk a)|]; done. }
  destruct (coercible tokens) eqn:Ht.
  2:{ rewrite (not_coercible_prop _ _ Ht). simpl. by intros [= <-]. }
  rewrite (coercible_prop _ _ Ht). simpl.
  destruct (truthy (field tokens "refresh_token")); simpl.
  - destruct (coercible_assign r "refresh_token" (field tokens "refresh_token") Hr)
      as (r' & -> & Hr').
    simpl. rewrite saveTokenCache_run, (coercible_prop _ _ Hr').
    destruct (JSON_stringify r'); [destruct (disk a)|]; done.
  - rewrite saveTokenCache_run, (coercible_prop _ _ Hr).
    destruct (JSON_stringify r); [destruct (disk a)|]; done.
Qed.

Lemma world_eta w :
  {| cachedTokens := cachedTokens w; tokenFile := tokenFile w; sent := sent w |} = w.
Proof. by destruct w. Qed.

Lemma expiresSoon_num now e :
  expiresSoon now (VNum (Fin e)) = (e - 5 * 60 * 1000 <? now).
Proof.
  unfold expiresSoon, js_or. simpl.
  destruct (Z.eqb_spec e 0) as [->|]; done.
Qed.

Lemma expiresSoon_mono now now' x :
  now <= now' -> expiresSoon now x = true -> expiresSoon now' x = true.
Proof.
  unfold expiresSoon. cbv zeta.
  destruct (num_sub _ _) as [y|]; simpl; [|done].
  intros Hle H. apply Z.ltb_lt in H. apply Z.ltb_lt. lia.
Qed.

Lemma jsonify_truthy v :
  truthy v = true -> exists v', jsonify v = Some v' /\ truthy v' = true.
Proof.
  destruct v as [| | |[z|]| | |]; simpl; try done; eauto.
Qed.

Lemma usable_started w :
  usable (cachedTokens w) = true \/ is_Some (stored (tokenFile w)) ->
  usable (cachedTokens (fst (started w))) = true.
Proof.
  assert (Hs : forall t, stored (tokenFile w) = Some t -> usable t = true).
  { intros t Ht. apply stored_Some in Ht as (_ & H1 & H2).
    unfold usable. by rewrite H1. }
  unfold started. intros [H|[t Ht]].
  - destruct (stored (tokenFile w)) as [t|] eqn:E; [|done].
    destruct (truthy _); simpl; auto.
  - rewrite Ht. destruct (truthy _); simpl; auto.
Qed.

Lemma started_file w : tokenFile (fst (started w)) = tokenFile w.
Proof.
  unfold started. destruct (stored (tokenFile w)); [|done].
  by destruct (truthy _).
Qed.

Lemma started_cache w :
  cachedTokens (fst (started w)) = cachedTokens w
  \/ tokenFile w = Holds (Encodes (cachedTokens (fst (started w)))).
Proof.
  unfold started. destruct (stored (tokenFile w)) as [t|] eqn:E; [|by left].
  apply stored_Some in E as (E & _). right.
  by destruct (truthy _).
Qed.

Lemma getAccessToken_coherent now m w :
  coherent m w ->
  expiresSoon now (field (VObj m) "expires_at") = true ->
  getAccessToken now w =
  (with_sent (sent w ++ [refresh_request (field (VObj m) "refresh_token")]) w,
   Return (Promise (InFlight (VObj m)))).
Proof.
  intros (Hc & Hf & Ha & Hr) Hsoon.
  rewrite getAccessToken_run. cbv zeta. rewrite Hc.
  unfold usable. simpl truthy at 2. cbv iota. rewrite Ha, Hsoon.
  unfold started. rewrite Hf, (stored_holds _ Ha), Hr. simpl.
  unfold with_sent, with_cachedTokens. simpl. by rewrite Hc.
Qed.

(** ** Properties of the token store and of the entry point *)

(** C10. [saveTokenCache] never throws; it answers [true] exactly when the
    record could be serialised and the write went through, and then the
    cache and the file both hold the record; when it answers [false] the
    cache is what it was before the call. *)
Theorem saveTokenCache_cache_follows_write d tokens w :
  exists w' ok,
    saveTokenCache d tokens w = (w', Return ok)
    /\ (ok = true <-> d = Written /\ is_Some (JSON_stringify tokens))
    /\ (ok = true ->
        cachedTokens w' = tokens
        /\ exists t, JSON_stringify tokens = Some t /\ tokenFile w' = Holds t)
    /\ (ok = false -> cachedTokens w' = cachedTokens w).
Proof.
  rewrite saveTokenCache_run.
  destruct (JSON_stringify tokens) as [t|]; [destruct d as [|f]|];
    eexists _, _; (split; [reflexivity|]); simpl.
  - repeat split; eauto; done.
  - repeat split; try done. by intros [? _].
  - repeat split; try done. by intros [_ [? ?]].
Qed.

(** C6, as the code has it. [loadTokenCache] never throws.  It answers
    [null], leaving the world as it is, when the file is missing, cannot be
    read, does not parse, or parses to something without a truthy
    [access_token]; every other content is returned as parsed and put in
    the cache: [access_token] is the only field that is checked. *)
Theorem loadTokenCache_checks_access_token_only w :
  exists w' v,
    loadTokenCache w = (w', Return v)
    /\ (tokenFile w = NoFile \/ tokenFile w = Unreadable
        \/ tokenFile w = Holds Malformed -> v = VNull /\ w' = w)
    /\ (forall content,
          tokenFile w = Holds (Encodes content) ->
          if truthy (field content "access_token")
          then v = content /\ w' = with_cachedTokens content w
          else v = VNull /\ w' = w).
Proof.
  rewrite loadTokenCache_run.
  destruct (stored (tokenFile w)) as [t|] eqn:E.
  - apply stored_Some in E as (E & _ & Ha).
    eexists _, _. split; [reflexivity|]. split.
    + rewrite E. intros [?|[?|?]]; done.
    + intros content. rewrite E. intros [= <-]. by rewrite Ha.
  - eexists _, _. split; [reflexivity|]. split; [done|].
    intros content Hc. rewrite Hc in E.
    destruct (truthy (field content "access_token")) eqn:Ha; [|done].
    by rewrite (stored_holds _ Ha) in E.
Qed.

(** C8. With [forceNew] set, [ensureAuthenticated] throws
    "Authentication required" whatever the cache, the file, the clock and
    the network are, and leaves the world as it found it: nothing is put in
    the cache and no request is sent. *)
Theorem ensureAuthenticated_forceNew now a w :
  ensureAuthenticated true now a w = (w, Throw AuthenticationRequired).
Proof. reflexivity. Qed.

(** C7. When the record that [refreshAccessToken] loads is missing or has
    no refresh token, the promise is rejected on the spot with
    "No refresh token available" and no request is sent. *)
Theorem refresh_needs_refresh_token w w1 tokens :
  loadTokenCache w = (w1, Return tokens) ->
  truthy tokens = false \/ truthy (field tokens "refresh_token") = false ->
  refreshAccessToken w = (w1, Return (Rejected NoRefreshTokenAvailable))
  /\ sent w1 = sent w.
Proof.
  rewrite loadTokenCache_run, refreshAccessToken_run.
  destruct (stored (tokenFile w)) as [t|] eqn:E.
  - intros [= <- <-]. apply stored_Some in E as (_ & Ht & _).
    intros [H|H]; [congruence|]. by rewrite H.
  - by intros [= <- <-].
Qed.

(** ** Properties of the refresh *)

(** C1, as the code has it. On a 2xx answer whose body is a JSON object the
    promise resolves with the body's [access_token] whatever the disk
    answered to the write: the boolean of [saveTokenCache] is not looked
    at.  After a failed write the cache still holds what it held. *)
Theorem refresh_resolves_whatever_the_save tokens a s m w :
  truthy tokens = true ->
  outcome a = Response s (Encodes (VObj m)) ->
  200 <= s < 300 ->
  exists w',
    refresh_settle tokens a w = (w', Return (default VUndefined (m !! "access_token")))
    /\ forall f, disk a = WriteFails f ->
         cachedTokens w' = cachedTokens w /\ tokenFile w' = f.
Proof.
  intros Ht Ha Hs. rewrite (refresh_settle_object _ _ _ _ _ Ht Ha Hs).
  eexists. split; [reflexivity|].
  intros f Hf. rewrite saveTokenCache_run, Hf. simpl. done.
Qed.

(** C3. A refresh that was started from the record [tokens] and is answered
    by a 2xx whose object body has no (or an empty) [refresh_token]
    resolves, and the record it saves carries the refresh token of
    [tokens], which is not empty: the cache holds it as it was, the file
    holds its JSON form.  Should the write fail, the cache is untouched. *)
Theorem refresh_token_carried_forward w0 w1 tokens a s m w :
  refreshAccessToken w0 = (w1, Return (InFlight tokens)) ->
  outcome a = Response s (Encodes (VObj m)) ->
  200 <= s < 300 ->
  truthy (default VUndefined (m !! "refresh_token")) = false ->
  exists w' v old,
    refresh_settle tokens a w = (w', Return v)
    /\ prop tokens "refresh_token" = Return old
    /\ truthy old = true
    /\ match disk a with
       | Written =>
           prop (cachedTokens w') "refresh_token" = Return old
           /\ exists saved old',
                tokenFile w' = Holds (Encodes saved)
                /\ prop saved "refresh_token" = Return old'
                /\ jsonify old = Some old'
                /\ truthy old' = true
       | WriteFails _ => cachedTokens w' = cachedTokens w
       end.
Proof.
  rewrite refreshAccessToken_run.
  destruct (stored (tokenFile w0)) as [t|] eqn:E; [|done].
  apply stored_Some in E as (_ & Ht & _).
  destruct (truthy (field t "refresh_token")) eqn:Hold; [|done].
  intros [= <- <-] Ha Hs Hm.
  rewrite (refresh_settle_object _ _ _ _ _ Ht Ha Hs), saveTokenCache_run.
  assert (Hr : refreshed t (at_time a) m !! "refresh_token"
               = Some (field t "refresh_token")).
  { unfold refreshed. cbv zeta. rewrite Hm, Hold. by rewrite lookup_insert_eq. }
  destruct (jsonify_truthy _ Hold) as (old' & Hj & Hold').
  destruct (disk a) as [|f]; simpl;
    eexists _, _, (field t "refresh_token");
    (split; [reflexivity|]); (split; [by apply truthy_prop|]);
    (split; [done|]); simpl; [|done].
  rewrite Hr. split; [done|].
  eexists _, old'. split; [reflexivity|]. simpl.
  rewrite lookup_omap, Hr. simpl. by rewrite Hj.
Qed.

(** C9. On a 2xx answer whose object body declares [expires_in] as the
    number [n], the record that is saved has
    [expires_at = Date.now () + n * 1000], [Date.now ()] being the clock in
    the response handler: an [expires_at] of the body, or of the previous
    record, plays no part. *)
Theorem expires_at_from_response_time tokens a s m n w :
  truthy tokens = true ->
  outcome a = Response s (Encodes (VObj m)) ->
  200 <= s < 300 ->
  m !! "expires_in" = Some (VNum (Fin n)) ->
  disk a = Written ->
  exists w' v saved,
    refresh_settle tokens a w = (w', Return v)
    /\ prop (cachedTokens w') "expires_at" = Return (VNum (Fin (at_time a + n * 1000)))
    /\ tokenFile w' = Holds (Encodes saved)
    /\ prop saved "expires_at" = Return (VNum (Fin (at_time a + n * 1000))).
Proof.
  intros Ht Ha Hs Hn Hd.
  rewrite (refresh_settle_object _ _ _ _ _ Ht Ha Hs), saveTokenCache_run, Hd.
  assert (Hr : refreshed tokens (at_time a) m !! "expires_at"
               = Some (VNum (Fin (at_time a + n * 1000)))).
  { unfold refreshed. cbv zeta. rewrite Hn. simpl.
    repeat case_match; rewrite ?lookup_insert_ne by done;
      by rewrite lookup_insert_eq. }
  simpl. eexists _, _, _. split; [reflexivity|]. simpl.
  rewrite Hr. split; [done|]. split; [reflexivity|]. simpl.
  by rewrite lookup_omap, Hr.
Qed.

(** C5. A record with a usable access token and a numeric [expires_at],
    in the cache or, the cache having none, in the file: when [expires_at]
    is less than five minutes after [now] (or past), [getAccessToken]
    starts a refresh and returns its promise; otherwise it returns the
    record's [access_token] and sends nothing.  So [now + 5min - 1ms] is
    refreshed and [now + 5min + 1ms] is served; the test being
    [now > expires_at - 300000], a record that expires exactly five
    minutes from [now] is served too. *)
Theorem expiry_boundary now m tok e w :
  m !! "access_token" = Some tok ->
  truthy tok = true ->
  m !! "expires_at" = Some (VNum (Fin e)) ->
  cachedTokens w = VObj m
  \/ (usable (cachedTokens w) = false /\ tokenFile w = Holds (Encodes (VObj m))) ->
  (e < now + 5 * 60 * 1000 ->
   exists w' p,
     getAccessToken now w = (w', Return (Promise p))
     /\ refreshAccessToken (with_cachedTokens (VObj m) w) = (w', Return p))
  /\ (now + 5 * 60 * 1000 <= e ->
      getAccessToken now w = (with_cachedTokens (VObj m) w, Return (Value tok))).
Proof.
  intros Hm Htok He Hw.
  assert (Hu : usable (VObj m) = true).
  { unfold usable, field. simpl. by rewrite Hm. }
  assert (Hsoon : expiresSoon now (field (VObj m) "expires_at")
                  = (e - 5 * 60 * 1000 <? now)).
  { unfold field. simpl. rewrite He. apply expiresSoon_num. }
  assert (Hacc : field (VObj m) "access_token" = tok).
  { unfold field. simpl. by rewrite Hm. }
  rewrite getAccessToken_run. cbv zeta.
  destruct Hw as [Hc|[Hc Hf]].
  - assert (Hw : with_cachedTokens (VObj m) w = w).
    { unfold with_cachedTokens. rewrite <- Hc. apply world_eta. }
    rewrite Hw, Hc, Hu, Hsoon, Hacc. split; intros H.
    + assert ((e - 5 * 60 * 1000 <? now) = true) as -> by (apply Z.ltb_lt; lia).
      eexists _, _. split; [reflexivity|]. apply refreshAccessToken_started.
    + assert ((e - 5 * 60 * 1000 <? now) = false) as -> by (apply Z.ltb_ge; lia).
      done.
  - rewrite Hc, Hf.
    rewrite stored_holds by (by rewrite Hacc).
    rewrite Hsoon, Hacc. split; intros H.
    + assert ((e - 5 * 60 * 1000 <? now) = true) as -> by (apply Z.ltb_lt; lia).
      eexists _, _. split; [reflexivity|]. apply refreshAccessToken_started.
    + assert ((e - 5 * 60 * 1000 <? now) = false) as -> by (apply Z.ltb_ge; lia).
      done.
Qed.

(** ** Failure and concurrency *)

(** C4, as the code has it. When the refresh that a request started fails,
    [ensureAuthenticated] throws "Authentication required" and the failure
    changes nothing: the file is the one the request found and the cache
    holds the record it held or the one of the file.  No state records the
    failure: a later request (the clock not set back) that finds this
    record in the cache, still about to expire, starts a refresh again. *)
Theorem failed_refresh_keeps_record_and_is_retried now a w w1 p :
  getAccessToken now w = (w1, Return (Promise p)) ->
  refresh_fails p a w1 ->
  ensureAuthenticated false now a w = (w1, Throw AuthenticationRequired)
  /\ tokenFile w1 = tokenFile w
  /\ (cachedTokens w1 = cachedTokens w
      \/ tokenFile w = Holds (Encodes (cachedTokens w1)))
  /\ forall now',
       now <= now' ->
       expiresSoon now (field (cachedTokens w1) "expires_at") = true ->
       exists w2 p', getAccessToken now' w1 = (w2, Return (Promise p')).
Proof.
  intros Hget Hfail.
  assert (Hauth : ensureAuthenticated false now a w = (w1, Throw AuthenticationRequired)).
  { unfold ensureAuthenticated. run. rewrite Hget. simpl.
    destruct p as [e|tokens]; simpl; [done|].
    destruct Hfail as (w' & e & Hs). unfold try_catch. rewrite Hs.
    apply refresh_settle_throw in Hs as ->. done. }
  split; [done|].
  rewrite getAccessToken_run in Hget. cbv zeta in Hget.
  assert (Hshape : exists w0,
            w1 = fst (started w0) /\ tokenFile w0 = tokenFile w
            /\ (usable (cachedTokens w0) = true \/ is_Some (stored (tokenFile w0)))
            /\ (cachedTokens w0 = cachedTokens w
                \/ tokenFile w = Holds (Encodes (cachedTokens w0))
                   /\ stored (tokenFile w) = Some (cachedTokens w0))).
  { destruct (usable (cachedTokens w)) eqn:Hu.
    - destruct (expiresSoon _ _); [|done].
      injection Hget as <- _. exists w. auto.
    - destruct (stored (tokenFile w)) as [t|] eqn:E; [|done].
      destruct (expiresSoon _ _); [|done].
      injection Hget as <- _. exists (with_cachedTokens t w).
      simpl. rewrite E. apply stored_Some in E as (E & _).
      repeat split; eauto. }
  destruct Hshape as (w0 & -> & Hf & Hu & Hc).
  split; [by rewrite started_file|].
  split.
  { destruct (started_cache w0) as [H|H].
    - rewrite H. destruct Hc as [Hc|[Hc _]]; [by left|by right].
    - right. by rewrite <- Hf. }
  intros now' Hle Hsoon.
  rewrite getAccessToken_run. cbv zeta.
  rewrite (usable_started _ Hu), (expiresSoon_mono _ _ _ Hle Hsoon).
  eauto.
Qed.

(** C2, as the code has it. From a state where the cache and the file
    agree on a record about to expire, [n] requests made before any answer
    arrives send [n] refresh requests, all with the record's refresh
    token, and get [n] promises; each promise resolves with the
    [access_token] of the answer to its own request. *)
Theorem callers_each_start_a_refresh nows m w :
  coherent m w ->
  Forall (fun now => expiresSoon now (field (VObj m) "expires_at") = true) nows ->
  callers nows w =
    (with_sent (sent w ++ replicate (length nows)
                            (refresh_request (field (VObj m) "refresh_token"))) w,
     Return (replicate (length nows) (Promise (InFlight (VObj m)))))
  /\ forall a s body w',
       outcome a = Response s (Encodes (VObj body)) ->
       200 <= s < 300 ->
       snd (await_token (Promise (InFlight (VObj m))) a w')
       = Return (default VUndefined (body !! "access_token")).
Proof.
  intros Hw Hnows. split.
  - revert w Hw. induction Hnows as [|now rest Hnow _ IH]; intros w Hw.
    + simpl. unfold mret, js_ret, with_sent. rewrite app_nil_r.
      by rewrite world_eta.
    + simpl. unfold mbind, js_bind.
      rewrite (getAccessToken_coherent _ _ _ Hw Hnow).
      unfold mbind, js_bind in IH. rewrite IH by exact Hw.
      unfold mret, js_ret, with_sent. simpl. by rewrite <- app_assoc.
  - intros a s body w' Ha Hs. simpl. unfold try_catch.
    by rewrite (refresh_settle_object (VObj m) _ _ _ _ eq_refl Ha Hs).
Qed.

(** ** Further properties of the store, the cache and the refresh *)

Lemma absent_stored w : absent w -> stored (tokenFile w) = None.
Proof.
  intros [_ [H|[H|[H|(content & H & Ha)]]]]; rewrite H; try done.
  unfold stored, field in *. destruct content; simpl in *; try done.
  all: by rewrite Ha.
Qed.

Lemma getAccessToken_absent now w :
  absent w -> getAccessToken now w = (w, Return (Value VNull)).
Proof.
  intros H. rewrite getAccessToken_run. cbv zeta.
  destruct H as [Hu Hf]. rewrite Hu. by rewrite (absent_stored w (conj Hu Hf)).
Qed.

Lemma ensureAuthenticated_absent now a w :
  absent w -> ensureAuthenticated false now a w = (w, Throw AuthenticationRequired).
Proof.
  intros H. unfold ensureAuthenticated. run.
  by rewrite (getAccessToken_absent _ _ H).
Qed.

Lemma refresh_settle_sent tokens a w :
  sent (fst (refresh_settle tokens a w)) = sent w.
Proof.
  destruct (refresh_settle tokens a w) as [w' [v|e]] eqn:E.
  2:{ by apply refresh_settle_throw in E as ->. }
  revert E. unfold refresh_settle.
  destruct (outcome a) as [|s [|body]]; run; try done.
  all: destruct (_ && _); try done.
  destruct (coercible body) eqn:Hb.
  2:{ by rewrite (not_coercible_prop _ _ Hb). }
  rewrite (coercible_prop _ _ Hb). simpl.
  match goal with
  | |- context [assign body "expires_at" ?x] =>
      destruct (coercible_assign body "expires_at" x Hb) as (r & -> & Hr)
  end.
  simpl. rewrite (coercible_prop _ _ Hr). simpl.
  destruct (truthy (field r "refresh_token")); simpl.
  { rewrite saveTokenCache_run, (coercible_prop _ _ Hr).
    destruct (JSON_stringify r); [destruct (disk a)|]; simpl; by intros [= <- _]. }
  destruct (coercible tokens) eqn:Ht.
  2:{ by rewrite (not_coercible_prop _ _ Ht). }
  rewrite (coercible_prop _ _ Ht). simpl.
  destruct (truthy (field tokens "refresh_token")); simpl.
  - destruct (coercible_assign r "refresh_token" (field tokens "refresh_token") Hr)
      as (r' & -> & Hr').
    simpl. rewrite saveTokenCache_run, (coercible_prop _ _ Hr').
    destruct (JSON_stringify r'); [destruct (disk a)|]; simpl; by intros [= <- _].
  - rewrite saveTokenCache_run, (coercible_prop _ _ Hr).
    destruct (JSON_stringify r); [destruct (disk a)|]; simpl; by intros [= <- _].
Qed.

Lemma await_token_returns r a w :
  exists w' v, await_token r a w = (w', Return v).
Proof.
  destruct r as [v|[e|tokens]]; simpl; try by eexists _, _.
  unfold try_catch. destruct (refresh_settle tokens a w) as [w' [v|e]]; by eexists _, _.
Qed.

Lemma jsonify_falsy v :
  truthy v = false -> truthy (default VUndefined (jsonify v)) = false.
Proof. destruct v as [| | |[z|]| | |]; simpl; try done. Qed.

Lemma field_jsonify m k :
  field (VObj (omap jsonify m)) k = default VUndefined (m !! k ≫= jsonify).
Proof. unfold field. simpl. by rewrite lookup_omap. Qed.

Lemma truthy_field_jsonify m k :
  truthy (field (VObj (omap jsonify m)) k) = truthy (field (VObj m) k).
Proof.
  rewrite field_jsonify. unfold field. simpl.
  destruct (m !! k) as [v|]; simpl; [|done].
  destruct (truthy v) eqn:E.
  - destruct (jsonify_truthy _ E) as (v' & -> & Hv). done.
  - by apply jsonify_falsy.
Qed.

Lemma started_effects w :
  tokenFile (fst (started w)) = tokenFile w
  /\ match snd (started w) with
     | InFlight t =>
         tokenFile w = Holds (Encodes t)
         /\ cachedTokens (fst (started w)) = t
         /\ truthy (field t "refresh_token") = true
         /\ sent (fst (started w)) = sent w ++ [refresh_request (field t "refresh_token")]
     | Rejected _ => sent (fst (started w)) = sent w
     end.
Proof.
  unfold started. destruct (stored (tokenFile w)) as [t|] eqn:E; [|done].
  apply stored_Some in E as (E & _).
  destruct (truthy (field t "refresh_token")) eqn:Hr; simpl; auto.
Qed.

(** X1. Saving an object record and loading it back: after a successful
    [saveTokenCache], [loadTokenCache] returns and caches the JSON form of
    the record when its [access_token] is truthy, and [null] otherwise;
    [saveTokenCache] itself accepts the record in both cases. *)
Theorem save_then_load m w :
  let w1 := fst (saveTokenCache Written (VObj m) w) in
  let saved := VObj (omap jsonify m) in
  jsonify (VObj m) = Some saved
  /\ saveTokenCache Written (VObj m) w = (w1, Return true)
  /\ loadTokenCache w1 =
     if truthy (field (VObj m) "access_token")
     then (with_cachedTokens saved w1, Return saved)
     else (w1, Return VNull).
Proof.
  cbv zeta. split; [done|]. rewrite saveTokenCache_run. simpl.
  split; [done|]. rewrite loadTokenCache_run. simpl tokenFile.
  destruct (truthy (field (VObj m) "access_token")) eqn:E.
  - rewrite stored_holds; [done|]. by rewrite truthy_field_jsonify.
  - unfold stored. simpl. rewrite lookup_omap.
    rewrite <- truthy_field_jsonify, field_jsonify in E. by rewrite E.
Qed.

(** X2. [loadTokenCache] is idempotent and only ever writes the cache:
    a second load gives the same answer in the same world, and the file
    and the requests sent are those it found. *)
Theorem loadTokenCache_twice w :
  loadTokenCache (fst (loadTokenCache w)) = loadTokenCache w
  /\ tokenFile (fst (loadTokenCache w)) = tokenFile w
  /\ sent (fst (loadTokenCache w)) = sent w.
Proof.
  rewrite (loadTokenCache_run w).
  destruct (stored (tokenFile w)) as [t|] eqn:E; simpl;
    rewrite loadTokenCache_run; simpl; by rewrite E.
Qed.

(** X3. [getAccessToken] never throws and never touches the file.  It
    sends a request exactly when the promise it returns is in flight; the
    record captured by that promise is the one in the file, it is now in
    the cache, and its refresh token, which is truthy, is the one sent. *)
Theorem getAccessToken_effects now w :
  exists w' r,
    getAccessToken now w = (w', Return r)
    /\ tokenFile w' = tokenFile w
    /\ match r with
       | Promise (InFlight t) =>
           tokenFile w = Holds (Encodes t)
           /\ cachedTokens w' = t
           /\ truthy (field t "refresh_token") = true
           /\ sent w' = sent w ++ [refresh_request (field t "refresh_token")]
       | Promise (Rejected _) | Value _ => sent w' = sent w
       end.
Proof.
  rewrite getAccessToken_run. cbv zeta.
  destruct (usable (cachedTokens w)).
  - destruct (expiresSoon _ _); [|by eexists _, _].
    eexists _, _. split; [reflexivity|].
    destruct (started_effects w) as [Hf Hs]. split; [done|].
    by destruct (snd (started w)).
  - destruct (stored (tokenFile w)) as [t|] eqn:E; [|by eexists _, _].
    destruct (expiresSoon _ _); [|by eexists _, _].
    eexists _, _. split; [reflexivity|].
    destruct (started_effects (with_cachedTokens t w)) as [Hf Hs].
    split; [done|]. by destruct (snd (started (with_cachedTokens t w))).
Qed.

(** X4. [ensureAuthenticated] has two outcomes only: it returns a truthy
    access token, or it throws "Authentication required"; every other
    error is replaced by that one and a falsy token is never returned. *)
Theorem ensureAuthenticated_outcome forceNew now a w :
  exists w',
    ensureAuthenticated forceNew now a w = (w', Throw AuthenticationRequired)
    \/ exists token,
         ensureAuthenticated forceNew now a w = (w', Return token)
         /\ truthy token = true /\ forceNew = false.
Proof.
  destruct forceNew; [by eexists; left|].
  unfold ensureAuthenticated. run.
  destruct (getAccessToken_effects now w) as (w1 & r & -> & _).
  destruct (await_token_returns r a w1) as (w2 & v & ->).
  destruct (truthy v) eqn:E; simpl; eexists; [right|left]; eauto.
Qed.

(** X5. Nothing in the cache and nothing usable in the file: the request
    ends at once with "Authentication required"; [getAccessToken] returns
    [null], nothing is sent and the world is left as it was. *)
Theorem absent_is_terminal now a w :
  absent w ->
  getAccessToken now w = (w, Return (Value VNull))
  /\ ensureAuthenticated false now a w = (w, Throw AuthenticationRequired).
Proof.
  intros H. split; [by apply getAccessToken_absent|by apply ensureAuthenticated_absent].
Qed.

Lemma refreshed_lookup_access_token tokens now m :
  refreshed tokens now m !! "access_token" = m !! "access_token".
Proof.
  unfold refreshed. cbv zeta.
  repeat case_match; by rewrite ?lookup_insert_ne.
Qed.

Lemma refreshed_lookup_expires_at tokens now m :
  refreshed tokens now m !! "expires_at"
  = Some (VNum (num_add (Fin now)
                  (num_mul (to_number (default VUndefined (m !! "expires_in")))
                     (Fin 1000)))).
Proof.
  unfold refreshed. cbv zeta.
  repeat case_match; rewrite ?lookup_insert_ne by done; by rewrite lookup_insert_eq.
Qed.

Lemma refresh_settle_object_written tokens a s m w :
  truthy tokens = true ->
  outcome a = Response s (Encodes (VObj m)) ->
  200 <= s < 300 ->
  disk a = Written ->
  refresh_settle tokens a w =
  ({| cachedTokens := VObj (refreshed tokens (at_time a) m);
      tokenFile := Holds (Encodes (VObj (omap jsonify (refreshed tokens (at_time a) m))));
      sent := sent w |},
   Return (default VUndefined (m !! "access_token"))).
Proof.
  intros Ht Ha Hs Hd.
  by rewrite (refresh_settle_object _ _ _ _ _ Ht Ha Hs), saveTokenCache_run, Hd.
Qed.

Lemma expiresSoon_falsy now e :
  truthy e = false -> expiresSoon now e = (- (5 * 60 * 1000) <? now).
Proof. unfold expiresSoon, js_or. by intros ->. Qed.

(** X6. How the answer settles a refresh started from a record: a network
    error rejects with that error, a status outside 200..299 with the
    status and the body, a 2xx whose body does not parse or is [null] with
    the parse error, all three leaving the world as it was; a 2xx with any
    other body resolves, object or not. *)
Theorem refresh_settle_cases tokens a w :
  truthy tokens = true ->
  match outcome a with
  | NetError => refresh_settle tokens a w = (w, Throw NetworkError)
  | Response s data =>
      if (200 <=? s) && (s <? 300) then
        match data with
        | Malformed | Encodes VUndefined | Encodes VNull =>
            refresh_settle tokens a w = (w, Throw ErrorParsingTokenResponse)
        | Encodes _ => exists w' v, refresh_settle tokens a w = (w', Return v)
        end
      else
        refresh_settle tokens a w = (w, Throw (TokenRefreshFailedWithStatus s data))
  end.
Proof.
  intros Ht. unfold refresh_settle.
  destruct (outcome a) as [|s data]; [done|].
  destruct (_ && _); [|done].
  assert (H : forall body, coercible body = true ->
            exists w' v,
              try_catch
                (tokenResponse ← JSON_parse (Encodes body);
                 expires_in ← get tokenResponse "expires_in";
                 let expiresAt :=
                   num_add (Fin (at_time a))
                     (num_mul (to_number expires_in) (Fin 1000)) in
                 tokenResponse ← set tokenResponse "expires_at" (VNum expiresAt);
                 new_refresh ← get tokenResponse "refresh_token";
                 tokenResponse ←
                   (if truthy new_refresh then mret tokenResponse else
                    old_refresh ← get tokens "refresh_token";
                    if truthy old_refresh
                    then set tokenResponse "refresh_token" old_refresh
                    else mret tokenResponse);
                 _ ← saveTokenCache (disk a) tokenResponse;
                 get tokenResponse "access_token")
                (fun error => throw ErrorParsingTokenResponse) w = (w', Return v)).
  { intros body Hb. run. rewrite (coercible_prop _ _ Hb). simpl.
    match goal with
    | |- context [assign body "expires_at" ?x] =>
        destruct (coercible_assign body "expires_at" x Hb) as (r & -> & Hr)
    end.
    simpl. rewrite (coercible_prop _ _ Hr). simpl.
    destruct (truthy (field r "refresh_token")); simpl.
    { rewrite saveTokenCache_run, (coercible_prop _ _ Hr).
      destruct (JSON_stringify r); [destruct (disk a)|]; simpl; by eexists _, _. }
    rewrite (truthy_prop _ Ht). simpl.
    destruct (truthy (field tokens "refresh_token")); simpl.
    - destruct (coercible_assign r "refresh_token" (field tokens "refresh_token") Hr)
        as (r' & -> & Hr').
      simpl. rewrite saveTokenCache_run, (coercible_prop _ _ Hr').
      destruct (JSON_stringify r'); [destruct (disk a)|]; simpl; by eexists _, _.
    - rewrite saveTokenCache_run, (coercible_prop _ _ Hr).
      destruct (JSON_stringify r); [destruct (disk a)|]; simpl; by eexists _, _. }
  destruct data as [|body]; [done|].
  destruct body; try done; by apply H.
Qed.

(** X7. A 2xx whose body is a JSON boolean, number or string: the write
    going through, the promise resolves with [undefined] and the body
    replaces the record in the cache and in the file; from then on every
    request ends with "Authentication required" and sends nothing. *)
Theorem primitive_body_replaces_record tokens a s v w :
  truthy tokens = true ->
  outcome a = Response s (Encodes v) ->
  200 <= s < 300 ->
  primitive v = true ->
  disk a = Written ->
  let w' := {| cachedTokens := v; tokenFile := Holds (Encodes v); sent := sent w |} in
  refresh_settle tokens a w = (w', Return VUndefined)
  /\ forall now' a',
       ensureAuthenticated false now' a' w' = (w', Throw AuthenticationRequired).
Proof.
  intros Ht Ha Hs Hv Hd. cbv zeta. split.
  - unfold refresh_settle. rewrite Ha, (two_hundreds _ Hs).
    destruct v as [| |b|[z|]|str| |]; try done; run;
      rewrite (truthy_prop _ Ht); simpl;
      (destruct (truthy (field tokens "refresh_token")); simpl);
      rewrite saveTokenCache_run, Hd; done.
  - intros now' a'. apply ensureAuthenticated_absent. split; simpl.
    + unfold usable. destruct (truthy v) eqn:E; [|done].
      by destruct v as [| |b|[z|]|str| |].
    + right. right. right. exists v. split; [done|].
      by destruct v as [| |b|[z|]|str| |].
Qed.

Lemma missing_expiry_spec now w :
  usable (cachedTokens w) = true ->
  truthy (field (cachedTokens w) "expires_at") = false ->
  - (5 * 60 * 1000) < now ->
  exists w' p, getAccessToken now w = (w', Return (Promise p)).
Proof.
  intros Hu He Hnow. rewrite getAccessToken_run. cbv zeta.
  rewrite Hu, (expiresSoon_falsy _ _ He).
  assert ((- (5 * 60 * 1000) <? now) = true) as -> by (apply Z.ltb_lt; lia).
  by eexists _, _.
Qed.

(** X8. A cached record whose [expires_at] is missing or falsy ([null],
    [0], NaN, the empty string) counts as expired: at any time after
    minus five minutes of the epoch [getAccessToken] starts a refresh. *)
Theorem missing_expiry_is_expired now w :
  usable (cachedTokens w) = true ->
  truthy (field (cachedTokens w) "expires_at") = false ->
  - (5 * 60 * 1000) < now ->
  exists w' p, getAccessToken now w = (w', Return (Promise p)).
Proof.
  apply missing_expiry_spec.
Qed.

(** X9. A 2xx object body with an access token and no [expires_in]: the
    record is saved with [expires_at = NaN] and the token is returned, but
    the record is never valid: the next [getAccessToken] starts a refresh
    again. *)
Theorem no_expires_in_never_valid tokens a s m tok w now' :
  truthy tokens = true ->
  outcome a = Response s (Encodes (VObj m)) ->
  200 <= s < 300 ->
  m !! "access_token" = Some tok ->
  truthy tok = true ->
  m !! "expires_in" = None ->
  disk a = Written ->
  - (5 * 60 * 1000) < now' ->
  exists w1 w2 p,
    refresh_settle tokens a w = (w1, Return tok)
    /\ prop (cachedTokens w1) "expires_at" = Return (VNum NaN)
    /\ getAccessToken now' w1 = (w2, Return (Promise p)).
Proof.
  intros Ht Ha Hs Hm Htok Hin Hd Hnow.
  rewrite (refresh_settle_object_written _ _ _ _ _ Ht Ha Hs Hd), Hm. simpl.
  eexists _. 
  assert (He : refreshed tokens (at_time a) m !! "expires_at" = Some (VNum NaN)).
  { rewrite refreshed_lookup_expires_at, Hin. done. }
  destruct (missing_expiry_spec now'
              {| cachedTokens := VObj (refreshed tokens (at_time a) m);
                 tokenFile := Holds (Encodes (VObj (omap jsonify
                                (refreshed tokens (at_time a) m))));
                 sent := sent w |}) as (w2 & p & H).
  - unfold usable, field. simpl. by rewrite refreshed_lookup_access_token, Hm.
  - unfold field. simpl. by rewrite He.
  - done.
  - exists w2, p. split; [done|]. split; [|done]. simpl. by rewrite He.
Qed.

Lemma testTokens_json t1 t2 t3 :
  omap jsonify (testTokens t1 t2 t3) = testTokens t1 t2 t3.
Proof.
  unfold testTokens.
  repeat (erewrite omap_insert_Some by reflexivity). by rewrite omap_empty.
Qed.

Lemma createTestTokens_written t1 t2 t3 w :
  createTestTokens t1 t2 t3 Written w =
  ({| cachedTokens := VObj (testTokens t1 t2 t3);
      tokenFile := Holds (Encodes (VObj (testTokens t1 t2 t3)));
      sent := sent w |},
   Return (VObj (testTokens t1 t2 t3))).
Proof.
  unfold createTestTokens. cbv zeta. fold (testTokens t1 t2 t3).
  unfold mbind, js_bind. rewrite saveTokenCache_run.
  unfold JSON_stringify. simpl. by rewrite testTokens_json.
Qed.

Lemma testTokens_coherent t1 t2 t3 l :
  coherent (testTokens t1 t2 t3)
    {| cachedTokens := VObj (testTokens t1 t2 t3);
       tokenFile := Holds (Encodes (VObj (testTokens t1 t2 t3)));
       sent := l |}.
Proof. repeat split. Qed.

(** X10. The test fixture: [createTestTokens], the write going through,
    leaves the same fabricated record in the cache and in the file, and
    for fifty-five minutes after its last clock reading [getAccessToken]
    returns the fabricated access token and sends nothing. *)
Theorem test_tokens_are_served t1 t2 t3 w now :
  now + 5 * 60 * 1000 <= t3 + 3600 * 1000 ->
  let w' := fst (createTestTokens t1 t2 t3 Written w) in
  createTestTokens t1 t2 t3 Written w = (w', Return (cachedTokens w'))
  /\ tokenFile w' = Holds (Encodes (cachedTokens w'))
  /\ getAccessToken now w'
     = (w', Return (Value (VStr ("test_access_token_" +:+ pretty t1)))).
Proof.
  intros Hnow. cbv zeta. rewrite createTestTokens_written. simpl.
  split; [done|]. split; [done|].
  rewrite getAccessToken_run. cbv zeta. simpl cachedTokens.
  assert (expiresSoon now (field (VObj (testTokens t1 t2 t3)) "expires_at") = false)
    as ->.
  { unfold field. simpl. unfold testTokens.
    rewrite !lookup_insert_ne by done. rewrite lookup_insert_eq. simpl.
    rewrite expiresSoon_num. apply Z.ltb_ge. lia. }
  done.
Qed.

(** X11. Once the fabricated record is within five minutes of its expiry,
    [getAccessToken] treats it like any other: it sends a refresh request
    that carries the fabricated refresh token. *)
Theorem expired_test_tokens_are_refreshed t1 t2 t3 w now :
  t3 + 3600 * 1000 < now + 5 * 60 * 1000 ->
  let w' := fst (createTestTokens t1 t2 t3 Written w) in
  getAccessToken now w'
  = (with_sent (sent w ++ [refresh_request
                             (VStr ("test_refresh_token_" +:+ pretty t2))]) w',
     Return (Promise (InFlight (cachedTokens w')))).
Proof.
  intros Hnow. cbv zeta. rewrite createTestTokens_written. simpl fst.
  rewrite (getAccessToken_coherent now (testTokens t1 t2 t3)).
  - done.
  - apply testTokens_coherent.
  - unfold field. simpl. unfold testTokens.
    rewrite !lookup_insert_ne by done. rewrite lookup_insert_eq. simpl.
    rewrite expiresSoon_num. apply Z.ltb_lt. lia.
Qed.

(** X12. A usable cached record that is not about to expire is served
    whatever the file has become: missing, unreadable, or holding another
    record; the file is not read and nothing is sent. *)
Theorem valid_cache_ignores_file now f w :
  usable (cachedTokens w) = true ->
  expiresSoon now (field (cachedTokens w) "expires_at") = false ->
  getAccessToken now (with_tokenFile f w)
  = (with_tokenFile f w, Return (Value (field (cachedTokens w) "access_token"))).
Proof.
  intros Hu He. rewrite getAccessToken_run. cbv zeta. simpl.
  by rewrite Hu, He.
Qed.

(** X13. A cached record about to expire cannot be refreshed once the
    file is missing, unreadable or malformed, whatever refresh token the
    cache holds: the refresh reads the file, is rejected with
    "No refresh token available", nothing is sent and the caller is told
    to authenticate. *)
Theorem expiring_cache_needs_the_file now a w :
  usable (cachedTokens w) = true ->
  expiresSoon now (field (cachedTokens w) "expires_at") = true ->
  tokenFile w = NoFile \/ tokenFile w = Unreadable \/ tokenFile w = Holds Malformed ->
  getAccessToken now w = (w, Return (Promise (Rejected NoRefreshTokenAvailable)))
  /\ ensureAuthenticated false now a w = (w, Throw AuthenticationRequired).
Proof.
  intros Hu He Hf.
  assert (Hget : getAccessToken now w
                 = (w, Return (Promise (Rejected NoRefreshTokenAvailable)))).
  { rewrite getAccessToken_run. cbv zeta. rewrite Hu, He. unfold started.
    by destruct Hf as [-> | [-> | ->]]. }
  split; [done|]. unfold ensureAuthenticated. run. by rewrite Hget.
Qed.

(** X14. The last answer wins: once a 2xx with an object body has been
    saved, cache, file and requests are what they would be had the answer
    handled before it, whatever it was, never arrived. *)
Theorem last_answer_wins tokens1 a1 tokens2 a2 s m w :
  truthy tokens2 = true ->
  outcome a2 = Response s (Encodes (VObj m)) ->
  200 <= s < 300 ->
  disk a2 = Written ->
  fst (refresh_settle tokens2 a2 (fst (refresh_settle tokens1 a1 w)))
  = fst (refresh_settle tokens2 a2 w).
Proof.
  intros Ht Ha Hs Hd.
  rewrite !(refresh_settle_object_written _ _ _ _ _ Ht Ha Hs Hd). simpl.
  by rewrite refresh_settle_sent.
Qed.

(** X15. A 2xx object body without [access_token]: the write going
    through, the promise resolves with [undefined] and the body is saved
    as the record all the same; as the record has no access token, every
    later request ends with "Authentication required" and sends
    nothing. *)
Theorem no_access_token_loses_record tokens a s m w :
  truthy tokens = true ->
  outcome a = Response s (Encodes (VObj m)) ->
  200 <= s < 300 ->
  m !! "access_token" = None ->
  disk a = Written ->
  exists w',
    refresh_settle tokens a w = (w', Return VUndefined)
    /\ sent w' = sent w
    /\ forall now' a',
         ensureAuthenticated false now' a' w' = (w', Throw AuthenticationRequired).
Proof.
  intros Ht Ha Hs Hm Hd.
  rewrite (refresh_settle_object_written _ _ _ _ _ Ht Ha Hs Hd), Hm.
  eexists. split; [reflexivity|]. split; [done|].
  intros now' a'. apply ensureAuthenticated_absent. split; simpl.
  - unfold usable, field. simpl. by rewrite refreshed_lookup_access_token, Hm.
  - right. right. right. eexists. split; [reflexivity|].
    rewrite field_jsonify. by rewrite refreshed_lookup_access_token, Hm.
Qed.

(** X16. A refreshed token is then served from the cache: after a 2xx
    object body with a truthy [access_token] and a numeric [expires_in]
    has been saved, [getAccessToken] returns that token, sending nothing,
    until five minutes before [Date.now () + expires_in * 1000]. *)
Theorem refreshed_token_is_served tokens a s m tok n w now' :
  truthy tokens = true ->
  outcome a = Response s (Encodes (VObj m)) ->
  200 <= s < 300 ->
  m !! "access_token" = Some tok ->
  truthy tok = true ->
  m !! "expires_in" = Some (VNum (Fin n)) ->
  disk a = Written ->
  now' + 5 * 60 * 1000 <= at_time a + n * 1000 ->
  let w' := fst (refresh_settle tokens a w) in
  refresh_settle tokens a w = (w', Return tok)
  /\ getAccessToken now' w' = (w', Return (Value tok)).
Proof.
  intros Ht Ha Hs Hm Htok Hn Hd Hnow. cbv zeta.
  rewrite (refresh_settle_object_written _ _ _ _ _ Ht Ha Hs Hd), Hm. simpl.
  split; [done|].
  rewrite getAccessToken_run. cbv zeta. simpl cachedTokens.
  assert (Hu : usable (VObj (refreshed tokens (at_time a) m)) = true).
  { unfold usable, field. simpl. by rewrite refreshed_lookup_access_token, Hm. }
  assert (He : field (VObj (refreshed tokens (at_time a) m)) "expires_at"
               = VNum (Fin (at_time a + n * 1000))).
  { unfold field. simpl. by rewrite refreshed_lookup_expires_at, Hn. }
  assert (Ha' : field (VObj (refreshed tokens (at_time a) m)) "access_token" = tok).
  { unfold field. simpl. by rewrite refreshed_lookup_access_token, Hm. }
  rewrite Hu, He, Ha', expiresSoon_num.
  assert ((at_time a + n * 1000 - 5 * 60 * 1000 <? now') = false) as ->
    by (apply Z.ltb_ge; lia).
  done.
Qed.

(** X17. A whole request that needs a refresh: the file holds a record
    with an access token and a refresh token that is about to expire, the
    cache holds the same record or nothing usable, and the provider
    answers 2xx with an object that has a truthy [access_token].  Then
    [ensureAuthenticated] returns that token and exactly one request has
    been sent, with the refresh token of the file's record. *)
Theorem refresh_end_to_end now a s m body tok w :
  cachedTokens w = VObj m \/ usable (cachedTokens w) = false ->
  tokenFile w = Holds (Encodes (VObj m)) ->
  truthy (field (VObj m) "access_token") = true ->
  truthy (field (VObj m) "refresh_token") = true ->
  expiresSoon now (field (VObj m) "expires_at") = true ->
  outcome a = Response s (Encodes (VObj body)) ->
  200 <= s < 300 ->
  body !! "access_token" = Some tok ->
  truthy tok = true ->
  exists w',
    ensureAuthenticated false now a w = (w', Return tok)
    /\ sent w' = sent w ++ [refresh_request (field (VObj m) "refresh_token")].
Proof.
  intros Hc Hf Hat Hrt Hsoon Ha Hs Hb Htok.
  assert (Hu : usable (VObj m) = true) by (unfold usable; simpl; exact Hat).
  assert (Hget : exists w1,
            getAccessToken now w = (w1, Return (Promise (InFlight (VObj m))))
            /\ sent w1 = sent w ++ [refresh_request (field (VObj m) "refresh_token")]).
  { rewrite getAccessToken_run. cbv zeta.
    destruct Hc as [Hc|Hc]; rewrite Hc.
    - rewrite Hu, Hsoon. unfold started. rewrite Hf, (stored_holds _ Hat), Hrt.
      by eexists.
    - rewrite Hf, (stored_holds _ Hat), Hsoon. unfold started. simpl.
      rewrite Hf, (stored_holds _ Hat), Hrt. by eexists. }
  destruct Hget as (w1 & Hget & Hsent).
  unfold ensureAuthenticated. run. rewrite Hget. simpl. unfold try_catch.
  rewrite (refresh_settle_object (VObj m) _ _ _ _ eq_refl Ha Hs), Hb. simpl.
  rewrite Htok. simpl. eexists. split; [reflexivity|].
  rewrite <- Hsent.
  rewrite <- (refresh_settle_sent (VObj m) a w1).
  by rewrite (refresh_settle_object (VObj m) _ _ _ _ eq_refl Ha Hs).
Qed.

(** X18. [saveTokenCache] overwrites: after a save that goes through,
    cache, file and requests are what they would be had the save before
    it, successful or not, not taken place. *)
Theorem last_save_wins d tokens1 tokens2 w :
  is_Some (JSON_stringify tokens2) ->
  saveTokenCache Written tokens2 (fst (saveTokenCache d tokens1 w))
  = saveTokenCache Written tokens2 w.
Proof.
  intros [t Ht]. rewrite !saveTokenCache_run, Ht.
  destruct (JSON_stringify tokens1); [destruct d|]; done.
Qed.

End TokenManager.

(** ** The scenario, run *)

(** The end-to-end scenario: an expired record [A1]/[R1] in the file, one
    refresh request carrying [R1], the token [A2] returned, and the record
    saved with [R1] and the new expiry. *)
Example end_to_end :
  ensureAuthenticated no_conversion false now0 (answer "A2" Written) (seeded (now0 - 1000))
  = ({| cachedTokens := VObj tokens_A2;
        tokenFile := Holds (Encodes (VObj tokens_A2));
        sent := [refresh_request (VStr "R1")] |},
     Return (VStr "A2")).
Proof. vm_compute. reflexivity. Qed.
(** ** Instances and counterexamples *)

(** C1 fails as stated: the write fails (the file and the cache still hold
    [A1], [saveTokenCache] answers [false]) and the promise resolves with
    the new token [A2] all the same. *)
Lemma failed_save_still_resolves :
  let w := with_sent [refresh_request (VStr "R1")] (warm (now0 - 1000)) in
  let a := answer "A2" (WriteFails (tokenFile w)) in
  saveTokenCache (disk a) (VObj tokens_A2) w = (w, Return false)
  /\ refresh_settle no_conversion (VObj (tokens_A1 (now0 - 1000))) a w
     = (w, Return (VStr "A2")).
Proof. split; vm_compute; reflexivity. Qed.

(** The same answer with a write that fails and destroys the file. *)
Lemma refresh_resolves_whatever_the_save_witness :
  let tokens := VObj (tokens_A1 (now0 - 1000)) in
  let a := answer "A2" (WriteFails NoFile) in
  let w := warm (now0 - 1000) in
  truthy tokens = true
  /\ outcome a = Response 200 (Encodes (VObj (body_of "A2")))
  /\ 200 <= 200 < 300
  /\ exists w',
       refresh_settle no_conversion tokens a w
       = (w', Return (default VUndefined (body_of "A2" !! "access_token")))
       /\ forall f, disk a = WriteFails f ->
            cachedTokens w' = cachedTokens w /\ tokenFile w' = f.
Proof.
  cbv zeta. split; [reflexivity|]. split; [reflexivity|]. split; [lia|].
  apply (refresh_resolves_whatever_the_save no_conversion
           (VObj (tokens_A1 (now0 - 1000))) (answer "A2" (WriteFails NoFile))
           200 (body_of "A2") (warm (now0 - 1000)));
    [reflexivity|reflexivity|lia].
Defined.

(** C2 fails as stated: two requests made before any answer arrives send
    two refresh requests, and each gets the token of its own answer. *)
Lemma two_callers_two_refreshes :
  let w := warm (now0 - 1000) in
  let r := Promise (InFlight (VObj (tokens_A1 (now0 - 1000)))) in
  let w2 := with_sent [refresh_request (VStr "R1"); refresh_request (VStr "R1")] w in
  callers no_conversion [now0; now0] w = (w2, Return [r; r])
  /\ snd (await_token no_conversion r (answer "A2" Written) w2) = Return (VStr "A2")
  /\ snd (await_token no_conversion r (answer "A3" Written)
            (fst (await_token no_conversion r (answer "A2" Written) w2)))
     = Return (VStr "A3").
Proof. repeat split; vm_compute; reflexivity. Qed.

(** Three requests in a row on the warm, expired record. *)
Lemma callers_each_start_a_refresh_witness :
  let m := tokens_A1 (now0 - 1000) in
  let w := warm (now0 - 1000) in
  let nows := [now0; now0 + 1; now0 + 2] in
  coherent m w
  /\ Forall (fun now => expiresSoon no_conversion now (field (VObj m) "expires_at") = true) nows
  /\ callers no_conversion nows w
     = (with_sent (sent w ++ replicate (length nows)
                             (refresh_request (field (VObj m) "refresh_token"))) w,
        Return (replicate (length nows) (Promise (InFlight (VObj m))))).
Proof.
  cbv zeta.
  assert (Hw : coherent (tokens_A1 (now0 - 1000)) (warm (now0 - 1000))).
  { repeat split; reflexivity. }
  assert (Hn : Forall (fun now => expiresSoon no_conversion now
                         (field (VObj (tokens_A1 (now0 - 1000))) "expires_at") = true)
                 [now0; now0 + 1; now0 + 2]).
  { repeat constructor. }
  split; [exact Hw|]. split; [exact Hn|].
  exact (proj1 (callers_each_start_a_refresh no_conversion _ _ _ Hw Hn)).
Defined.

(** The sample answer brings no refresh token: [R1] is kept. *)
Lemma refresh_token_carried_forward_witness :
  let w0 := seeded (now0 - 1000) in
  let w1 := with_sent [refresh_request (VStr "R1")] (warm (now0 - 1000)) in
  let tokens := VObj (tokens_A1 (now0 - 1000)) in
  let a := answer "A2" Written in
  refreshAccessToken w0 = (w1, Return (InFlight tokens))
  /\ truthy (default VUndefined (body_of "A2" !! "refresh_token")) = false
  /\ exists w' v old,
       refresh_settle no_conversion tokens a w1 = (w', Return v)
       /\ prop tokens "refresh_token" = Return old
       /\ truthy old = true
       /\ prop (cachedTokens w') "refresh_token" = Return old.
Proof.
  cbv zeta.
  assert (H0 : refreshAccessToken (seeded (now0 - 1000))
               = (with_sent [refresh_request (VStr "R1")] (warm (now0 - 1000)),
                  Return (InFlight (VObj (tokens_A1 (now0 - 1000)))))).
  { vm_compute. reflexivity. }
  assert (Hm : truthy (default VUndefined (body_of "A2" !! "refresh_token")) = false).
  { reflexivity. }
  split; [exact H0|]. split; [exact Hm|].
  destruct (refresh_token_carried_forward no_conversion _ _ _ (answer "A2" Written)
              200 (body_of "A2")
              (with_sent [refresh_request (VStr "R1")] (warm (now0 - 1000)))
              H0 eq_refl ltac:(lia) Hm)
    as (w' & v & old & H1 & H2 & H3 & H4 & _).
  exists w', v, old. auto.
Defined.

(** C4 fails as stated: the refresh of the first request is refused with a
    500 and the caller is told to authenticate; nothing records the
    failure, the next request sends a second refresh request and, the
    provider answering this time, gets the token [A2]. *)
Lemma failed_refresh_is_retried :
  let w1 := with_sent [refresh_request (VStr "R1")] (warm (now0 - 1000)) in
  ensureAuthenticated no_conversion false now0 answer_500 (seeded (now0 - 1000))
  = (w1, Throw AuthenticationRequired)
  /\ ensureAuthenticated no_conversion false (now0 + 1) (answer "A2" Written) w1
     = ({| cachedTokens := VObj tokens_A2;
           tokenFile := Holds (Encodes (VObj tokens_A2));
           sent := [refresh_request (VStr "R1"); refresh_request (VStr "R1")] |},
        Return (VStr "A2")).
Proof. split; vm_compute; reflexivity. Qed.

(** The first request of the scenario above, refused with a 500. *)
Lemma failed_refresh_keeps_record_and_is_retried_witness :
  let w := seeded (now0 - 1000) in
  let w1 := with_sent [refresh_request (VStr "R1")] (warm (now0 - 1000)) in
  let p := InFlight (VObj (tokens_A1 (now0 - 1000))) in
  getAccessToken no_conversion now0 w = (w1, Return (Promise p))
  /\ refresh_fails no_conversion p answer_500 w1
  /\ ensureAuthenticated no_conversion false now0 answer_500 w
     = (w1, Throw AuthenticationRequired)
  /\ tokenFile w1 = tokenFile w.
Proof.
  cbv zeta.
  assert (H0 : getAccessToken no_conversion now0 (seeded (now0 - 1000))
               = (with_sent [refresh_request (VStr "R1")] (warm (now0 - 1000)),
                  Return (Promise (InFlight (VObj (tokens_A1 (now0 - 1000))))))).
  { vm_compute. reflexivity. }
  assert (H1 : refresh_fails no_conversion (InFlight (VObj (tokens_A1 (now0 - 1000))))
                 answer_500
                 (with_sent [refresh_request (VStr "R1")] (warm (now0 - 1000)))).
  { eexists _, _. vm_compute. reflexivity. }
  split; [exact H0|]. split; [exact H1|].
  destruct (failed_refresh_keeps_record_and_is_retried no_conversion _ _ _ _ _ H0 H1)
    as (H2 & H3 & _).
  split; [exact H2|exact H3].
Defined.

(** One millisecond on either side of the five minutes. *)
Lemma expiry_boundary_witness :
  let soon := now0 + 5 * 60 * 1000 - 1 in
  let late := now0 + 5 * 60 * 1000 + 1 in
  (exists w' p, getAccessToken no_conversion now0 (warm soon) = (w', Return (Promise p)))
  /\ getAccessToken no_conversion now0 (warm late) = (warm late, Return (Value (VStr "A1"))).
Proof.
  cbv zeta. split.
  - destruct (proj1 (expiry_boundary no_conversion now0
                       (tokens_A1 (now0 + 5 * 60 * 1000 - 1)) (VStr "A1")
                       (now0 + 5 * 60 * 1000 - 1) (warm (now0 + 5 * 60 * 1000 - 1))
                       eq_refl eq_refl eq_refl (or_introl eq_refl)) ltac:(lia))
      as (w' & p & H & _).
    exists w', p. exact H.
  - exact (proj2 (expiry_boundary no_conversion now0
                    (tokens_A1 (now0 + 5 * 60 * 1000 + 1)) (VStr "A1")
                    (now0 + 5 * 60 * 1000 + 1) (warm (now0 + 5 * 60 * 1000 + 1))
                    eq_refl eq_refl eq_refl (or_introl eq_refl)) ltac:(lia)).
Defined.

(** C6 fails as stated: a file with an [access_token] and nothing else is
    loaded and cached, though it has no [refresh_token] and no
    [expires_at]. *)
Lemma access_token_alone_is_loaded :
  let content := VObj (<["access_token" := VStr "A1"]> ∅) in
  let w := {| cachedTokens := VNull; tokenFile := Holds (Encodes content); sent := [] |} in
  loadTokenCache w = (with_cachedTokens content w, Return content)
  /\ prop content "refresh_token" = Return VUndefined
  /\ prop content "expires_at" = Return VUndefined.
Proof. repeat split; vm_compute; reflexivity. Qed.

(** A file without a refresh token: the refresh is rejected, nothing is
    sent. *)
Lemma refresh_needs_refresh_token_witness :
  let content := VObj (<["access_token" := VStr "A1"]> ∅) in
  let w := {| cachedTokens := VNull; tokenFile := Holds (Encodes content); sent := [] |} in
  loadTokenCache w = (with_cachedTokens content w, Return content)
  /\ truthy (field content "refresh_token") = false
  /\ refreshAccessToken w
     = (with_cachedTokens content w, Return (Rejected NoRefreshTokenAvailable))
  /\ sent (with_cachedTokens content w) = sent w.
Proof.
  cbv zeta.
  assert (H0 : loadTokenCache
                 {| cachedTokens := VNull;
                    tokenFile := Holds (Encodes (VObj (<["access_token" := VStr "A1"]> ∅)));
                    sent := [] |}
               = (with_cachedTokens (VObj (<["access_token" := VStr "A1"]> ∅))
                    {| cachedTokens := VNull;
                       tokenFile := Holds (Encodes (VObj (<["access_token" := VStr "A1"]> ∅)));
                       sent := [] |},
                  Return (VObj (<["access_token" := VStr "A1"]> ∅)))).
  { vm_compute. reflexivity. }
  split; [exact H0|]. split; [reflexivity|].
  exact (refresh_needs_refresh_token _ _ _ H0 (or_intror eq_refl)).
Defined.

(** The sample answer, received at [now0 + 250] with
    [expires_in = 3600]. *)
Lemma expires_at_from_response_time_witness :
  let tokens := VObj (tokens_A1 (now0 - 1000)) in
  let a := answer "A2" Written in
  body_of "A2" !! "expires_in" = Some (VNum (Fin 3600))
  /\ exists w' v saved,
       refresh_settle no_conversion tokens a (warm (now0 - 1000)) = (w', Return v)
       /\ prop (cachedTokens w') "expires_at"
          = Return (VNum (Fin (at_time a + 3600 * 1000)))
       /\ tokenFile w' = Holds (Encodes saved)
       /\ prop saved "expires_at" = Return (VNum (Fin (at_time a + 3600 * 1000))).
Proof.
  cbv zeta. split; [reflexivity|].
  apply (expires_at_from_response_time no_conversion
           (VObj (tokens_A1 (now0 - 1000))) (answer "A2" Written) 200
           (body_of "A2") 3600 (warm (now0 - 1000)));
    [reflexivity|reflexivity|lia|reflexivity|reflexivity].
Defined.

(** ** Instances of the further properties *)

(** Before any login. *)
Lemma absent_is_terminal_witness :
  absent empty_world
  /\ ensureAuthenticated no_conversion false now0 (answer "A2" Written) empty_world
     = (empty_world, Throw AuthenticationRequired).
Proof.
  assert (H : absent empty_world).
  { split; [reflexivity|]. left. reflexivity. }
  split; [exact H|].
  exact (proj2 (absent_is_terminal no_conversion now0 (answer "A2" Written) _ H)).
Defined.

(** The provider refuses with a 500. *)
Lemma refresh_settle_cases_witness :
  truthy (VObj (tokens_A1 (now0 - 1000))) = true
  /\ refresh_settle no_conversion (VObj (tokens_A1 (now0 - 1000))) answer_500
       (warm (now0 - 1000))
     = (warm (now0 - 1000), Throw (TokenRefreshFailedWithStatus 500 Malformed)).
Proof.
  split; [reflexivity|].
  exact (refresh_settle_cases no_conversion (VObj (tokens_A1 (now0 - 1000)))
           answer_500 (warm (now0 - 1000)) eq_refl).
Defined.

(** The provider answers 200 with the JSON string ["ok"]. *)
Lemma primitive_body_replaces_record_witness :
  primitive (VStr "ok") = true
  /\ refresh_settle no_conversion (VObj (tokens_A1 (now0 - 1000)))
       (answer_with (VStr "ok")) (warm (now0 - 1000))
     = ({| cachedTokens := VStr "ok"; tokenFile := Holds (Encodes (VStr "ok"));
           sent := [] |}, Return VUndefined).
Proof.
  split; [reflexivity|].
  exact (proj1 (primitive_body_replaces_record no_conversion
                  (VObj (tokens_A1 (now0 - 1000))) (answer_with (VStr "ok")) 200
                  (VStr "ok") (warm (now0 - 1000))
                  eq_refl eq_refl ltac:(lia) eq_refl eq_refl)).
Defined.

(** A cached record that has an access token only. *)
Lemma missing_expiry_is_expired_witness :
  let w := {| cachedTokens := VObj (<["access_token" := VStr "A1"]> ∅);
              tokenFile := NoFile; sent := [] |} in
  usable (cachedTokens w) = true
  /\ truthy (field (cachedTokens w) "expires_at") = false
  /\ exists w' p, getAccessToken no_conversion now0 w = (w', Return (Promise p)).
Proof.
  cbv zeta. split; [reflexivity|]. split; [reflexivity|].
  apply (missing_expiry_is_expired no_conversion now0); [reflexivity|reflexivity|].
  unfold now0. lia.
Defined.

(** An answer that brings [A2] and no lifetime. *)
Lemma no_expires_in_never_valid_witness :
  let body := <["access_token" := VStr "A2"]> ∅ in
  body !! "expires_in" = None
  /\ exists w1 w2 p,
       refresh_settle no_conversion (VObj (tokens_A1 (now0 - 1000)))
         (answer_with (VObj body)) (warm (now0 - 1000)) = (w1, Return (VStr "A2"))
       /\ prop (cachedTokens w1) "expires_at" = Return (VNum NaN)
       /\ getAccessToken no_conversion (now0 + 1000) w1 = (w2, Return (Promise p)).
Proof.
  cbv zeta. split; [reflexivity|].
  apply (no_expires_in_never_valid no_conversion (VObj (tokens_A1 (now0 - 1000)))
           (answer_with (VObj (<["access_token" := VStr "A2"]> ∅))) 200
           (<["access_token" := VStr "A2"]> ∅) (VStr "A2"));
    [reflexivity|reflexivity|lia|reflexivity|reflexivity|reflexivity|reflexivity|].
  unfold now0. lia.
Defined.

(** Test tokens made at [now0], asked for half an hour later. *)
Lemma test_tokens_are_served_witness :
  now0 + 1800 * 1000 + 5 * 60 * 1000 <= now0 + 3600 * 1000
  /\ getAccessToken no_conversion (now0 + 1800 * 1000)
       (fst (createTestTokens now0 now0 now0 Written empty_world))
     = (fst (createTestTokens now0 now0 now0 Written empty_world),
        Return (Value (VStr "test_access_token_1700000000000"))).
Proof.
  assert (H : now0 + 1800 * 1000 + 5 * 60 * 1000 <= now0 + 3600 * 1000) by lia.
  split; [exact H|].
  exact (proj2 (proj2 (test_tokens_are_served no_conversion now0 now0 now0
                         empty_world (now0 + 1800 * 1000) H))).
Defined.

(** Test tokens made at [now0], asked for an hour later. *)
Lemma expired_test_tokens_are_refreshed_witness :
  now0 + 3600 * 1000 < now0 + 3600 * 1000 + 5 * 60 * 1000
  /\ sent (fst (getAccessToken no_conversion (now0 + 3600 * 1000)
                  (fst (createTestTokens now0 now0 now0 Written empty_world))))
     = [refresh_request (VStr "test_refresh_token_1700000000000")].
Proof.
  assert (H : now0 + 3600 * 1000 < now0 + 3600 * 1000 + 5 * 60 * 1000) by lia.
  split; [exact H|].
  rewrite (expired_test_tokens_are_refreshed no_conversion now0 now0 now0
             empty_world (now0 + 3600 * 1000) H).
  reflexivity.
Defined.

(** A record good for an hour, the file having disappeared. *)
Lemma valid_cache_ignores_file_witness :
  let w := warm (now0 + 3600 * 1000) in
  usable (cachedTokens w) = true
  /\ expiresSoon no_conversion now0 (field (cachedTokens w) "expires_at") = false
  /\ getAccessToken no_conversion now0 (with_tokenFile NoFile w)
     = (with_tokenFile NoFile w, Return (Value (VStr "A1"))).
Proof.
  cbv zeta. split; [reflexivity|]. split; [reflexivity|].
  exact (valid_cache_ignores_file no_conversion now0 NoFile
           (warm (now0 + 3600 * 1000)) eq_refl eq_refl).
Defined.

(** An expired record in the cache, with its refresh token, and no file. *)
Lemma expiring_cache_needs_the_file_witness :
  let w := with_tokenFile NoFile (warm (now0 - 1000)) in
  usable (cachedTokens w) = true
  /\ expiresSoon no_conversion now0 (field (cachedTokens w) "expires_at") = true
  /\ tokenFile w = NoFile
  /\ ensureAuthenticated no_conversion false now0 (answer "A2" Written) w
     = (w, Throw AuthenticationRequired).
Proof.
  cbv zeta. split; [reflexivity|]. split; [reflexivity|]. split; [reflexivity|].
  exact (proj2 (expiring_cache_needs_the_file no_conversion now0 (answer "A2" Written)
                  (with_tokenFile NoFile (warm (now0 - 1000)))
                  eq_refl eq_refl (or_introl eq_refl))).
Defined.

(** Two refreshes in flight: [A2] is answered first, then [A3]. *)
Lemma last_answer_wins_witness :
  let tokens := VObj (tokens_A1 (now0 - 1000)) in
  let w := warm (now0 - 1000) in
  fst (refresh_settle no_conversion tokens (answer "A3" Written)
         (fst (refresh_settle no_conversion tokens (answer "A2" Written) w)))
  = fst (refresh_settle no_conversion tokens (answer "A3" Written) w).
Proof.
  cbv zeta.
  apply (last_answer_wins no_conversion (VObj (tokens_A1 (now0 - 1000)))
           (answer "A2" Written) (VObj (tokens_A1 (now0 - 1000)))
           (answer "A3" Written) 200 (body_of "A3") (warm (now0 - 1000)));
    [reflexivity|reflexivity|lia|reflexivity].
Defined.

(** The provider answers 200 with the empty object. *)
Lemma no_access_token_loses_record_witness :
  (∅ : gmap string value) !! "access_token" = None
  /\ exists w',
       refresh_settle no_conversion (VObj (tokens_A1 (now0 - 1000)))
         (answer_with (VObj ∅)) (warm (now0 - 1000)) = (w', Return VUndefined)
       /\ sent w' = sent (warm (now0 - 1000))
       /\ forall now' a',
            ensureAuthenticated no_conversion false now' a' w'
            = (w', Throw AuthenticationRequired).
Proof.
  split; [reflexivity|].
  apply (no_access_token_loses_record no_conversion (VObj (tokens_A1 (now0 - 1000)))
           (answer_with (VObj ∅)) 200 ∅ (warm (now0 - 1000)));
    [reflexivity|reflexivity|lia|reflexivity|reflexivity].
Defined.

(** The sample answer, and a request one second after it. *)
Lemma refreshed_token_is_served_witness :
  let tokens := VObj (tokens_A1 (now0 - 1000)) in
  let w' := fst (refresh_settle no_conversion tokens (answer "A2" Written)
                   (warm (now0 - 1000))) in
  now0 + 1250 + 5 * 60 * 1000 <= at_time (answer "A2" Written) + 3600 * 1000
  /\ getAccessToken no_conversion (now0 + 1250) w' = (w', Return (Value (VStr "A2"))).
Proof.
  cbv zeta.
  assert (H : now0 + 1250 + 5 * 60 * 1000
              <= at_time (answer "A2" Written) + 3600 * 1000).
  { simpl. lia. }
  split; [exact H|].
  exact (proj2 (refreshed_token_is_served no_conversion
                  (VObj (tokens_A1 (now0 - 1000))) (answer "A2" Written) 200
                  (body_of "A2") (VStr "A2") 3600 (warm (now0 - 1000))
                  (now0 + 1250) eq_refl eq_refl ltac:(lia) eq_refl eq_refl
                  eq_refl eq_refl H)).
Defined.

(** The sample scenario, with a write that fails. *)
Lemma refresh_end_to_end_witness :
  let w := seeded (now0 - 1000) in
  let a := answer "A2" (WriteFails Unreadable) in
  usable (cachedTokens w) = false
  /\ tokenFile w = Holds (Encodes (VObj (tokens_A1 (now0 - 1000))))
  /\ expiresSoon no_conversion now0
       (field (VObj (tokens_A1 (now0 - 1000))) "expires_at") = true
  /\ exists w',
       ensureAuthenticated no_conversion false now0 a w = (w', Return (VStr "A2"))
       /\ sent w' = sent w ++ [refresh_request
                                 (field (VObj (tokens_A1 (now0 - 1000))) "refresh_token")].
Proof.
  cbv zeta. split; [reflexivity|]. split; [reflexivity|]. split; [reflexivity|].
  apply (refresh_end_to_end no_conversion now0 (answer "A2" (WriteFails Unreadable))
           200 (tokens_A1 (now0 - 1000)) (body_of "A2") (VStr "A2")
           (seeded (now0 - 1000)));
    [right; reflexivity|reflexivity|reflexivity|reflexivity|reflexivity
    |reflexivity|lia|reflexivity|reflexivity].
Defined.

(** A failed save of [A1], then a save of [A2]. *)
Lemma last_save_wins_witness :
  is_Some (JSON_stringify (VObj tokens_A2))
  /\ saveTokenCache Written (VObj tokens_A2)
       (fst (saveTokenCache (WriteFails Unreadable) (VObj (tokens_A1 now0)) empty_world))
     = saveTokenCache Written (VObj tokens_A2) empty_world.
Proof.
  assert (H : is_Some (JSON_stringify (VObj tokens_A2))).
  { eexists. reflexivity. }
  split; [exact H|].
  exact (last_save_wins (WriteFails Unreadable) (VObj (tokens_A1 now0))
           (VObj tokens_A2) empty_world H).
Defined.
